(** * docsai: the documentation pipeline and its configuration store

    A shallow embedding of [src/docsai/main.py] and [src/docsai/doc_main.py].
    Python text is a [string] holding its UTF-8 bytes; the file system, the
    console and the process-wide [genai] credential form an explicit [World]
    threaded through a state-and-exception monad; the TOML library and the
    hosted model are external collaborators gathered in [Env]. *)

From Stdlib Require Import ZArith Lia Ascii String.
From stdpp Require Import gmap strings list fin_maps pretty.

Local Open Scope string_scope.
Local Open Scope list_scope.
Local Open Scope Z_scope.
Set Warnings "-register-all".

(** ** Python text *)

Module PyStr.

Definition chr (n : N) : ascii := ascii_of_N n.

(** The line boundaries that are one byte long, [\r] apart:
    [\n], [\v], [\f], [\x1c], [\x1d] and [\x1e]. *)
Definition is_break1 (c : ascii) : bool :=
  let n := N_of_ascii c in
  ((n =? 10) || (n =? 11) || (n =? 12) || (n =? 28) || (n =? 29) || (n =? 30))%N.

Definition is_cr (c : ascii) : bool := (N_of_ascii c =? 13)%N.
Definition is_lf (c : ascii) : bool := (N_of_ascii c =? 10)%N.

(** [prepend c ls] puts [c] in front of the first line of [ls]. *)
Definition prepend (c : ascii) (ls : list string) : list string :=
  match ls with
  | [] => [String c ""]
  | l :: ls' => String c l :: ls'
  end.

(** [str.splitlines()], line ends dropped.  The boundaries are [\n], [\r],
    [\r\n], [\v], [\f], [\x1c], [\x1d], [\x1e] and, in their UTF-8 form,
    U+0085 (C2 85), U+2028 (E2 80 A8) and U+2029 (E2 80 A9).  A last line
    without a line end counts when it is not empty. *)
Fixpoint splitlines (s : string) : list string :=
  match s with
  | "" => []
  | String c s1 =>
      if is_break1 c then "" :: splitlines s1
      else if is_cr c then
        match s1 with
        | String d s2 => if is_lf d then "" :: splitlines s2
                         else "" :: splitlines s1
        | "" => "" :: splitlines s1
        end
      else if (N_of_ascii c =? 194)%N then
        match s1 with
        | String d s2 =>
            if (N_of_ascii d =? 133)%N then "" :: splitlines s2
            else prepend c (splitlines s1)
        | "" => prepend c (splitlines s1)
        end
      else if (N_of_ascii c =? 226)%N then
        match s1 with
        | String d (String e s3) =>
            if ((N_of_ascii d =? 128) &&
                ((N_of_ascii e =? 168) || (N_of_ascii e =? 169)))%N
            then "" :: splitlines s3
            else prepend c (splitlines s1)
        | _ => prepend c (splitlines s1)
        end
      else prepend c (splitlines s1)
  end.

(** [sep.join(parts)]. *)
Fixpoint join (sep : string) (parts : list string) : string :=
  match parts with
  | [] => ""
  | [p] => p
  | p :: ps => p +:+ sep +:+ join sep ps
  end.

(** A slice bound [i] of a sequence of length [len], as Python clamps it. *)
Definition clamp (len i : Z) : Z :=
  if i <? 0 then Z.max (i + len) 0 else Z.min i len.

(** [l[start:stop]]; a slice never raises. *)
Definition slice {A} (start stop : Z) (l : list A) : list A :=
  let len := Z.of_nat (length l) in
  let lo := clamp len start in
  let hi := clamp len stop in
  take (Z.to_nat (hi - lo)) (drop (Z.to_nat lo) l).

Definition LF : string := String (chr 10) "".

Fixpoint last_char (s : string) : option ascii :=
  match s with
  | "" => None
  | String c "" => Some c
  | String _ s' => last_char s'
  end.

Fixpoint has_lf (s : string) : bool :=
  match s with
  | "" => false
  | String c s' => is_lf c || has_lf s'
  end.

Definition ends_with_newline (s : string) : bool :=
  match last_char s with
  | Some c => is_lf c
  | None => false
  end.

End PyStr.

(** ** Exceptions *)

Inductive exn :=
| FileNotFoundError
| IsADirectoryError
| OSError              (* any other error of the operating system *)
| KeyError
| TypeError
| ValueError
| IndexError
| RuntimeError         (* [Path.resolve] on a loop of symbolic links *)
| TomlDecodeError
| ServiceError         (* whatever the request to the hosted model raises *)
| Exit (code : Z).     (* [typer.Exit] *)

Inductive result (A : Type) :=
| Ok (a : A)
| Raise (e : exn).
Arguments Ok {A} a.
Arguments Raise {A} e.

(** ** Paths, after [pathlib.PurePosixPath] *)

(** A path is its anchor and its components.  [pathlib] drops empty and
    ["."] components when it parses a path and keeps [".."]; a component
    holds no ["/"]. *)
Record Path := mkPath { is_abs : bool; parts : list string }.

Module PyPath.

(** [path.name]: the last component, empty for ["."] and ["/"]. *)
Definition name (p : Path) : string := List.last (parts p) "".

(** [path.parent]. *)
Definition parent (p : Path) : Path := mkPath (is_abs p) (removelast (parts p)).

(** [path / child], for a child that is one component. *)
Definition joinpath (p : Path) (child : string) : Path :=
  mkPath (is_abs p) (parts p ++ [child]).

(** [path.with_name(name)]: the last component replaced.  A path with
    an empty name has none to replace; the new name is one component
    here, so the check of it always passes. *)
Definition with_name (p : Path) (new_name : string) : result Path :=
  if String.eqb (name p) "" then Raise ValueError
  else Ok (mkPath (is_abs p) (removelast (parts p) ++ [new_name])).

(** [str(path)]. *)
Definition str (p : Path) : string :=
  if is_abs p then "/" +:+ PyStr.join "/" (parts p)
  else match parts p with
       | [] => "."
       | _ => PyStr.join "/" (parts p)
       end.

End PyPath.

(** ** Python values *)

(** What [toml.load] can put in a document, and the [Path] object that
    [config] stores in it before dumping.  Floats and dates are left out:
    like [VInt] they are neither subscriptable nor [False]. *)
Inductive value :=
| VStr (s : string)
| VInt (z : Z)
| VBool (b : bool)
| VList (l : list value)
| VDict (d : list (string * value))
| VPath (p : Path).

(** A [dict] keeps its keys in insertion order. *)
Definition dict := list (string * value).

Module PyDict.

Fixpoint get (d : dict) (k : string) : option value :=
  match d with
  | [] => None
  | (k', v) :: d' => if String.eqb k' k then Some v else get d' k
  end.

(** [k in d]. *)
Definition mem (d : dict) (k : string) : bool :=
  match get d k with Some _ => true | None => false end.

(** [d[k] = v]: an existing key keeps its place, a new one goes last. *)
Fixpoint set (d : dict) (k : string) (v : value) : dict :=
  match d with
  | [] => [(k, v)]
  | (k', v') :: d' =>
      if String.eqb k' k then (k', v) :: d' else (k', v') :: set d' k v
  end.

Definition keys (d : dict) : list string := map fst d.

(** [obj[k]] for any object [obj] a document can hold. *)
Definition getitem (obj : value) (k : string) : result value :=
  match obj with
  | VDict d => match get d k with
               | Some v => Ok v
               | None => Raise KeyError
               end
  | _ => Raise TypeError
  end.

(** [obj[k] = v], returning the object as it is afterwards. *)
Definition setitem (obj : value) (k : string) (v : value) : result value :=
  match obj with
  | VDict d => Ok (VDict (set d k v))
  | _ => Raise TypeError
  end.

End PyDict.

(** ** The world the program runs in *)

Inductive node :=
| File (content : string)
| Dir
| Symlink (target : Path).

(** The handle [genai.GenerativeModel(...)] returns. *)
Record GenerativeModel := mkModel {
  model_name : string;
  system_instruction : string
}.

(** A location is an absolute path free of [".."] and of symbolic links. *)
Definition location := list string.

Inductive event :=
| Read (loc : location)                       (* a file opened and read *)
| Write (loc : location) (content : string)   (* a file opened with "w" and written *)
| Request (m : GenerativeModel) (content : string)
| Echo (msg : string)                         (* [typer.echo] *)
| Print (msg : string)                        (* [rich.print] *)
| Traceback (e : exn).                        (* the report of an uncaught exception *)

Record World := mkWorld {
  cwd : location;
  home : Path;                          (* [Path.home()] *)
  nodes : gmap (list string) node;      (* the file system, the root left implicit *)
  genai_key : option value;             (* the credential [genai.configure] holds *)
  trace : list event                    (* what happened so far, oldest first *)
}.

(** The world after some more events, after a file is stored, after the
    credential is set. *)
Definition emit (es : list event) (w : World) : World :=
  mkWorld (cwd w) (home w) (nodes w) (genai_key w) (trace w ++ es).

Definition store (loc : location) (content : string) (w : World) : World :=
  mkWorld (cwd w) (home w) (<[loc := File content]> (nodes w)) (genai_key w) (trace w).

Definition set_key (key : value) (w : World) : World :=
  mkWorld (cwd w) (home w) (nodes w) (Some key) (trace w).

(** The external collaborators: the [toml] library and the hosted model.
    [toml_loads] is [None] on text that is no TOML, [generate_content] is
    [None] when the request raises; the answer of the model may depend on
    all that happened before, on the credential and on the handle. *)
Record Env := mkEnv {
  toml_loads : string -> option dict;
  toml_dumps : dict -> string;
  generate_content :
    list event -> option value -> GenerativeModel -> string -> option string
}.

Module FS.

Definition node_at (fs : gmap (list string) node) (loc : location) : option node :=
  match loc with
  | [] => Some Dir
  | _ => fs !! loc
  end.

(** [os.readlink] after [os.lstat]: the target when [loc] is a link. *)
Definition link_at (fs : gmap (list string) node) (loc : location) : option Path :=
  match fs !! loc with
  | Some (Symlink t) => Some t
  | _ => None
  end.

(** One pass of [os.path.realpath] in its lenient mode: walk the
    components of [rest] from the location [acc]; [".."] steps to the
    parent, a symbolic link is replaced by where its target leads
    ([follow]), a missing component is kept as it is. *)
Fixpoint walk (follow : location -> list string -> option location)
    (fs : gmap (list string) node) (acc : location) (rest : list string)
    : option location :=
  match rest with
  | [] => Some acc
  | name :: rest' =>
      if String.eqb name ".." then walk follow fs (removelast acc) rest'
      else if String.eqb name "." || String.eqb name "" then walk follow fs acc rest'
      else
        match link_at fs (acc ++ [name]) with
        | Some t =>
            match follow (if is_abs t then [] else acc) (parts t) with
            | Some acc' => walk follow fs acc' rest'
            | None => None
            end
        | None => walk follow fs (acc ++ [name]) rest'
        end
  end.

(** [depth] bounds how deep links may nest; [None] is a loop. *)
Fixpoint realpath (depth : nat) (fs : gmap (list string) node)
    (acc : location) (rest : list string) : option location :=
  match depth with
  | O => None
  | S depth' => walk (realpath depth' fs) fs acc rest
  end.

(** Where a path leads.  Links cannot nest deeper than there are nodes
    unless they loop. *)
Definition locate (w : World) (p : Path) : option location :=
  realpath (S (size (nodes w))) (nodes w)
           (if is_abs p then [] else cwd w) (parts p).

(** A component that names an entry of a directory. *)
Definition plain (name : string) : bool :=
  negb (String.eqb name "..") && negb (String.eqb name "." || String.eqb name "").

(** [acc ++ rest] goes through plain names and no link after [acc]. *)
Fixpoint settled_from (fs : gmap (list string) node)
    (acc : location) (rest : list string) : bool :=
  match rest with
  | [] => true
  | name :: rest' =>
      plain name
      && bool_decide (link_at fs (acc ++ [name]) = None)
      && settled_from fs (acc ++ [name]) rest'
  end.

(** A location in the strict sense: what [realpath] returns. *)
Definition settled (fs : gmap (list string) node) (loc : location) : bool :=
  settled_from fs [] loc.

(** A file can be written at [loc]: no directory is in the way. *)
Definition writable (fs : gmap (list string) node) (loc : location) : bool :=
  match node_at fs loc with
  | Some Dir | Some (Symlink _) => false
  | _ => true
  end.

End FS.

(** ** Computations: state and exceptions *)

Definition M (A : Type) : Type := World -> World * result A.

Definition ret {A} (a : A) : M A := fun w => (w, Ok a).

Definition bind {A B} (c : M A) (k : A -> M B) : M B :=
  fun w => match c w with
           | (w', Ok a) => k a w'
           | (w', Raise e) => (w', Raise e)
           end.

Definition raise {A} (e : exn) : M A := fun w => (w, Raise e).

(** [try: body / except e: handler]; [catches] says which exceptions the
    clause names. *)
Definition try_except {A} (body : M A) (catches : exn -> bool) (handler : M A) : M A :=
  fun w => match body w with
           | (w', Raise e) => if catches e then handler w' else (w', Raise e)
           | r => r
           end.

Definition lift {A} (r : result A) : M A := fun w => (w, r).

Definition log (e : event) : M unit := fun w => (emit [e] w, Ok tt).

(** stdpp's notations: [x ← c; k] and [c;; k]. *)
#[global] Instance M_ret : MRet M := @ret.
#[global] Instance M_bind : MBind M := fun A B k c => bind c k.

Definition is_FileNotFoundError (e : exn) : bool :=
  match e with FileNotFoundError => true | _ => false end.

Definition is_KeyError (e : exn) : bool :=
  match e with KeyError => true | _ => false end.

Module Sys.

(** [Path.resolve()]. *)
Definition resolve (p : Path) : M Path :=
  fun w => match FS.locate w p with
           | Some loc => (w, Ok (mkPath true loc))
           | None => (w, Raise RuntimeError)
           end.

(** [Path.exists()]. *)
Definition exists_ (p : Path) : M bool :=
  fun w => match FS.locate w p with
           | Some loc => (w, Ok (bool_decide (is_Some (FS.node_at (nodes w) loc))))
           | None => (w, Ok false)
           end.

(** [open(p, "r")] followed by [read()]; a file holds the text that
    [read()] gives. *)
Definition read_text (p : Path) : M string :=
  fun w => match FS.locate w p with
           | None => (w, Raise OSError)
           | Some loc =>
               match FS.node_at (nodes w) loc with
               | Some (File s) => (emit [Read loc] w, Ok s)
               | Some Dir => (w, Raise IsADirectoryError)
               | Some (Symlink _) => (w, Raise OSError)
               | None => (w, Raise FileNotFoundError)
               end
           end.

(** [open(p, "w")] followed by [write(s)]; the directory the file goes
    to is taken to exist. *)
Definition write_text (p : Path) (s : string) : M unit :=
  fun w => match FS.locate w p with
           | None => (w, Raise OSError)
           | Some loc =>
               match FS.node_at (nodes w) loc with
               | Some Dir => (w, Raise IsADirectoryError)
               | Some (Symlink _) => (w, Raise OSError)
               | _ => (emit [Write loc s] (store loc s w), Ok tt)
               end
           end.

Definition echo (msg : string) : M unit := log (Echo msg).
Definition rich_print (msg : string) : M unit := log (Print msg).

(** [genai.configure(api_key=key)]. *)
Definition configure (key : value) : M unit :=
  fun w => (set_key key w, Ok tt).

Definition path_home : M Path := fun w => (w, Ok (home w)).

End Sys.

(** [toml.load(file)] and [toml.dump(doc, file)] on a file opened at [p]. *)
Module Toml.

Definition load (E : Env) (p : Path) : M dict :=
  text ← Sys.read_text p;
  match toml_loads E text with
  | Some doc => mret doc
  | None => raise TomlDecodeError
  end.

Definition dump (E : Env) (doc : dict) (p : Path) : M unit :=
  Sys.write_text p (toml_dumps E doc).

End Toml.

(** [model.generate_content(content).text]: one request, its answer or
    the exception it raised. *)
Definition generate_text (E : Env) (model : GenerativeModel) (content : string) : M string :=
  fun w =>
    match generate_content E (trace w) (genai_key w) model content with
    | Some text => (emit [Request model content] w, Ok text)
    | None => (emit [Request model content] w, Raise ServiceError)
    end.

(** [f"{language}"] for an [Optional[str]]. *)
Definition format_opt (language : option string) : string :=
  match language with
  | Some l => l
  | None => "None"
  end.

(** [v is False]. *)
Definition is_False (v : value) : bool :=
  match v with
  | VBool false => true
  | _ => false
  end.

(** The two subcommands, as [typer] hands them to the program;
    [config_path] is [None] when the option is not given. *)
Inductive command :=
| CmdDocument (files : list Path) (replace : bool) (language : option string)
| CmdConfig (api_key : string) (config_path : option Path).

(** How a run ends: [typer.Exit] gives its code, any other exception is
    reported with a traceback and gives 1. *)
Definition exit_status (r : World * result unit) : World * Z :=
  match r with
  | (w, Ok _) => (w, 0)
  | (w, Raise (Exit code)) => (w, code)
  | (w, Raise e) => (emit [Traceback e] w, 1)
  end.

(** ** [src/docsai/main.py] *)

Module Main.
Section Program.

Context (E : Env).

Definition load_config (config_path : Path) : M value :=
  try_except
    (config_file ← Toml.load E config_path;
     api ← lift (PyDict.getitem (VDict config_file) "API");
     api_key ← lift (PyDict.getitem api "API_KEY");
     mret api_key)
    is_KeyError
    (mret (VBool false)).

Definition init_config : M unit :=
  h ← Sys.path_home;
  let config_path := PyPath.joinpath h "docsai.toml" in
  found ← Sys.exists_ config_path;
  (if negb found then Sys.write_text config_path "" else mret tt);;
  api_key ← load_config config_path;
  (if is_False api_key then
     Sys.echo "API key not found. Please configure it using 'docsai config --api-key'.";;
     raise (Exit 1)
   else mret tt);;
  Sys.configure api_key.

Definition config (api_key : string) (config_path : Path) : M unit :=
  config_file ←
    try_except (Toml.load E config_path)
      is_FileNotFoundError
      (Sys.echo ("Configuration file not found at " +:+ PyPath.str config_path
                 +:+ ", please create one.");;
       raise (Exit 1));
  let config_file :=
    if negb (PyDict.mem config_file "API")
    then PyDict.set config_file "API" (VDict []) else config_file in
  let config_file :=
    if negb (PyDict.mem config_file "PATH")
    then PyDict.set config_file "PATH" (VDict []) else config_file in
  api ← lift (PyDict.getitem (VDict config_file) "API");
  api ← lift (PyDict.setitem api "API_KEY" (VStr api_key));
  let config_file := PyDict.set config_file "API" api in
  path ← lift (PyDict.getitem (VDict config_file) "PATH");
  path ← lift (PyDict.setitem path "PATH" (VPath config_path));
  let config_file := PyDict.set config_file "PATH" path in
  Toml.dump E config_file config_path.

(** Lines 157 and 158: what is kept of the answer of the model. *)
Definition doc_code (response : string) : string :=
  PyStr.join PyStr.LF (PyStr.slice 1 (-1) (PyStr.splitlines response)).

(** Lines 147 to 151: where the result goes. *)
Definition output_file (file : Path) (replace : bool) : M Path :=
  if replace then Sys.resolve file
  else resolved ← Sys.resolve file;
       lift (PyPath.with_name resolved ("doc_" +:+ PyPath.name file)).

Fixpoint handling_files (files : list Path) (replace : bool)
    (model : GenerativeModel) : M unit :=
  match files with
  | [] => mret tt
  | file :: files' =>
      out ← output_file file replace;
      try_except
        (source ← Sys.resolve file;
         file_content ← Sys.read_text source;
         response ← generate_text E model file_content;
         Sys.write_text out (doc_code response);;
         Sys.echo ("Documentation for " +:+ PyPath.name file +:+ " ready"))
        is_FileNotFoundError
        (Sys.rich_print ("The file " +:+ PyPath.str file +:+ " doesn't exist");;
         raise (Exit 1));;
      handling_files files' replace model
  end.

Definition document (files : list Path) (replace : bool)
    (language : option string) : M unit :=
  let model :=
    mkModel "gemini-1.5-flash"
      ("You are a good programmer. Expert at documenting code. You will be passed code that may or may not have documentation. Your job will be to write the documentation for this code inside the code. If the code is in python you are going to put strong typing in it, otherwise you are not going to change the code. Your ourput will be only the code. The documentation will be in "
       +:+ format_opt language) in
  init_config;;
  handling_files files replace model.

(** [app()]: run the subcommand and leave with its exit status. *)
Definition app (cmd : command) (w : World) : World * Z :=
  exit_status
    (match cmd with
     | CmdDocument files replace language => document files replace language w
     | CmdConfig api_key None =>
         (h ← Sys.path_home; config api_key (PyPath.joinpath h "docsai.toml")) w
     | CmdConfig api_key (Some config_path) => config api_key config_path w
     end).

End Program.
End Main.

(** ** [src/docsai/doc_main.py] *)

Module DocMain.
Section Program.

Context (E : Env).

Definition load_config (config_path : Path) : M value :=
  try_except
    (config_file ← Toml.load E config_path;
     api ← lift (PyDict.getitem (VDict config_file) "API");
     api_key ← lift (PyDict.getitem api "API_KEY");
     mret api_key)
    is_KeyError
    (mret (VBool false)).

Definition init_config : M unit :=
  h ← Sys.path_home;
  let config_path := PyPath.joinpath h "docsai.toml" in
  found ← Sys.exists_ config_path;
  (if negb found then Sys.write_text config_path "" else mret tt);;
  api_key ← load_config config_path;
  (if is_False api_key then
     Sys.echo "API key not found. Please configure it using 'docsai config --api-key'.";;
     raise (Exit 1)
   else mret tt);;
  Sys.configure api_key.

Definition config (api_key : string) (config_path : Path) : M unit :=
  config_file ←
    try_except (Toml.load E config_path)
      is_FileNotFoundError
      (Sys.echo ("Configuration file not found at " +:+ PyPath.str config_path
                 +:+ ", please create one.");;
       raise (Exit 1));
  let config_file :=
    if negb (PyDict.mem config_file "API")
    then PyDict.set config_file "API" (VDict []) else config_file in
  let config_file :=
    if negb (PyDict.mem config_file "PATH")
    then PyDict.set config_file "PATH" (VDict []) else config_file in
  api ← lift (PyDict.getitem (VDict config_file) "API");
  api ← lift (PyDict.setitem api "API_KEY" (VStr api_key));
  let config_file := PyDict.set config_file "API" api in
  path ← lift (PyDict.getitem (VDict config_file) "PATH");
  path ← lift (PyDict.setitem path "PATH" (VPath config_path));
  let config_file := PyDict.set config_file "PATH" path in
  Toml.dump E config_file config_path.

(** Lines 157 and 158: what is kept of the answer of the model. *)
Definition doc_code (response : string) : string :=
  PyStr.join PyStr.LF (PyStr.slice 1 (-1) (PyStr.splitlines response)).

(** Lines 147 to 151: where the result goes. *)
Definition output_file (file : Path) (replace : bool) : M Path :=
  if replace then Sys.resolve file
  else resolved ← Sys.resolve file;
       lift (PyPath.with_name resolved ("doc_" +:+ PyPath.name file)).

Fixpoint handling_files (files : list Path) (replace : bool)
    (model : GenerativeModel) : M unit :=
  match files with
  | [] => mret tt
  | file :: files' =>
      out ← output_file file replace;
      try_except
        (source ← Sys.resolve file;
         file_content ← Sys.read_text source;
         response ← generate_text E model file_content;
         Sys.write_text out (doc_code response);;
         Sys.echo ("Documentation for " +:+ PyPath.name file +:+ " ready"))
        is_FileNotFoundError
        (Sys.rich_print ("The file " +:+ PyPath.str file +:+ " doesn't exist");;
         raise (Exit 1));;
      handling_files files' replace model
  end.

Definition document (files : list Path) (replace : bool)
    (language : option string) : M unit :=
  let model :=
    mkModel "gemini-1.5-flash"
      ("You are a good programmer. Expert at documenting code. You will be passed code that may or may not have documentation. Your job will be to write the documentation for this code inside the code. If the code is in python you are going to put strong typing in it, otherwise you are not going to change the code. Your ourput will be only the code. The documentation will be in "
       +:+ format_opt language) in
  init_config;;
  handling_files files replace model.

(** [app()]: run the subcommand and leave with its exit status. *)
Definition app (cmd : command) (w : World) : World * Z :=
  exit_status
    (match cmd with
     | CmdDocument files replace language => document files replace language w
     | CmdConfig api_key None =>
         (h ← Sys.path_home; config api_key (PyPath.joinpath h "docsai.toml")) w
     | CmdConfig api_key (Some config_path) => config api_key config_path w
     end).

End Program.
End DocMain.

(** ** Vocabulary of the properties *)

(** The working directory is a location in the strict sense, as
    [os.getcwd] gives it. *)
Definition wf (w : World) : bool := FS.settled (nodes w) (cwd w).

(** [doc["API"]["API_KEY"]]. *)
Definition api_key_of (doc : dict) : result value :=
  match PyDict.getitem (VDict doc) "API" with
  | Ok api => PyDict.getitem api "API_KEY"
  | Raise e => Raise e
  end.

Definition is_table (v : value) : bool :=
  match v with
  | VDict _ => true
  | _ => false
  end.

(** The key [k] is free or holds a table. *)
Definition table_or_free (doc : dict) (k : string) : bool :=
  match PyDict.get doc k with
  | Some v => is_table v
  | None => true
  end.

(** The table under [k], empty when [k] is free. *)
Definition table_at (doc : dict) (k : string) : dict :=
  match PyDict.get doc k with
  | Some (VDict t) => t
  | _ => []
  end.

(** The document with its two sections completed: each section keeps its
    place and its other entries. *)
Definition saved_as (doc : dict) (api_key : string) (path_value : value) : dict :=
  PyDict.set
    (PyDict.set doc "API"
       (VDict (PyDict.set (table_at doc "API") "API_KEY" (VStr api_key))))
    "PATH" (VDict (PyDict.set (table_at doc "PATH") "PATH" path_value)).

(** The document [config] dumps when both sections are tables or free. *)
Definition saved (doc : dict) (api_key : string) (config_path : Path) : dict :=
  saved_as doc api_key (VPath config_path).

(** The handle [document] builds for a language. *)
Definition documenter (language : option string) : GenerativeModel :=
  mkModel "gemini-1.5-flash"
    ("You are a good programmer. Expert at documenting code. You will be passed code that may or may not have documentation. Your job will be to write the documentation for this code inside the code. If the code is in python you are going to put strong typing in it, otherwise you are not going to change the code. Your ourput will be only the code. The documentation will be in "
     +:+ format_opt language).

(** What [init_config] tells the user who has no key. *)
Definition no_key_msg : string :=
  "API key not found. Please configure it using 'docsai config --api-key'.".

(** Where [init_config] and, by default, [config] look for the file. *)
Definition default_config_path (w : World) : Path :=
  PyPath.joinpath (home w) "docsai.toml".

(** A computation that leaves the world well formed. *)
Definition keeps {A} (c : M A) : Prop :=
  forall w w' r, wf w = true -> c w = (w', r) -> wf w' = true.

(** The events of a run that are a message to the user. *)
Definition is_message (e : event) : bool :=
  match e with
  | Echo _ | Print _ | Traceback _ => true
  | _ => false
  end.

(** ** A sample environment *)

(** A small world for the examples: a home directory with a few source
    files and a link, a rendering of documents standing for the [toml]
    library and a model with canned answers. *)
Module Demo.

Definition dq : string := String (PyStr.chr 34) "".
Definition fence : string := "```".

Definition home_u : Path := mkPath true ["home"; "u"].
Definition cfg : Path := PyPath.joinpath home_u "docsai.toml".
Definition cfg_loc : location := ["home"; "u"; "docsai.toml"].

Definition render_value (v : value) : string :=
  match v with
  | VStr s => dq +:+ s +:+ dq
  | VInt z => pretty z
  | VBool true => "true"
  | VBool false => "false"
  | VPath p => dq +:+ "PosixPath('" +:+ PyPath.str p +:+ "')" +:+ dq
  | VList _ => "[]"
  | VDict _ => "{}"
  end.

Definition render_entry (kv : string * value) : string :=
  kv.1 +:+ " = " +:+ render_value kv.2 +:+ PyStr.LF.

Definition render_item (kv : string * value) : string :=
  match kv.2 with
  | VDict t => "[" +:+ kv.1 +:+ "]" +:+ PyStr.LF
               +:+ String.concat "" (map render_entry t)
  | _ => render_entry kv
  end.

Definition render (doc : dict) : string := String.concat "" (map render_item doc).

(** A document as it reads back: the [Path] has become its text. *)
Definition reread_value (v : value) : value :=
  match v with
  | VPath p => VStr ("PosixPath('" +:+ PyPath.str p +:+ "')")
  | _ => v
  end.

Definition reread (doc : dict) : dict :=
  map (fun kv : string * value =>
         match kv.2 with
         | VDict t => (kv.1, VDict (map (fun e : string * value => (e.1, reread_value e.2)) t))
         | v => (kv.1, reread_value v)
         end) doc.

Definition doc_abc : dict := [("API", VDict [("API_KEY", VStr "abc")])].
Definition doc_no_key : dict := [("API", VDict [])].
Definition doc_api_int : dict := [("API", VInt 1)].
Definition doc_key_false : dict := [("API", VDict [("API_KEY", VBool false)])].
Definition doc_saved : dict :=
  [("API", VDict [("API_KEY", VStr "abc")]); ("PATH", VDict [("PATH", VPath cfg)])].

Definition known : list dict :=
  [[]; doc_abc; doc_no_key; doc_api_int; doc_key_false; doc_saved].

Definition loads (text : string) : option dict :=
  reread <$> List.find (fun doc => String.eqb (render doc) text) known.

Definition hello_answer : string :=
  fence +:+ "python" +:+ PyStr.LF +:+ "print(1)  # prints one" +:+ PyStr.LF +:+ fence.

(** The answer to ["x = 1"] has a blank line before the closing fence,
    the answer to the empty file is empty, the request for ["boom"]
    fails. *)
Definition answer (content : string) : option string :=
  if String.eqb content "print(1)" then Some hello_answer
  else if String.eqb content "x = 1" then
    Some (fence +:+ PyStr.LF +:+ "x = 1" +:+ PyStr.LF +:+ PyStr.LF +:+ fence)
  else if String.eqb content "" then Some ""
  else if String.eqb content "boom" then None
  else Some (fence +:+ PyStr.LF +:+ content +:+ PyStr.LF +:+ fence).

Definition env : Env :=
  mkEnv loads render
        (fun _ key _ content => match key with Some _ => answer content | None => None end).

Definition fs0 : gmap (list string) node :=
  list_to_map
    [ (["home"], Dir);
      (["home"; "u"], Dir);
      (["home"; "u"; "lib"], Dir);
      (["home"; "u"; "hello.py"], File "print(1)");
      (["home"; "u"; "blank.py"], File "x = 1");
      (["home"; "u"; "empty.py"], File "");
      (["home"; "u"; "lib"; "real.py"], File "print(1)");
      (["home"; "u"; "link.py"], Symlink (mkPath false ["lib"; "real.py"])) ].

(** No configuration file yet, no credential set. *)
Definition fresh : World := mkWorld ["home"; "u"] home_u fs0 None [].

(** The same with a configuration file holding [doc]. *)
Definition configured (doc : dict) : World := store cfg_loc (render doc) fresh.

(** After [init_config] got the key ["abc"]. *)
Definition ready : World := set_key (VStr "abc") (configured doc_abc).

Definition model : GenerativeModel := mkModel "gemini-1.5-flash" "Document this.".

Definition rel (name : string) : Path := mkPath false [name].

Definition hello_loc : location := ["home"; "u"; "hello.py"].
Definition doc_hello_loc : location := ["home"; "u"; "doc_hello.py"].
Definition blank_loc : location := ["home"; "u"; "blank.py"].
Definition empty_loc : location := ["home"; "u"; "empty.py"].
Definition real_loc : location := ["home"; "u"; "lib"; "real.py"].

End Demo.

(** ** Further vocabulary *)

(** A line boundary starts at the head of [s]: the tests of
    [PyStr.splitlines]. *)
Definition starts_break (s : string) : bool :=
  match s with
  | "" => false
  | String c s1 =>
      PyStr.is_break1 c || PyStr.is_cr c
      || ((N_of_ascii c =? 194)%N &&
          match s1 with
          | String d _ => (N_of_ascii d =? 133)%N
          | "" => false
          end)
      || ((N_of_ascii c =? 226)%N &&
          match s1 with
          | String d (String e _) =>
              ((N_of_ascii d =? 128) && ((N_of_ascii e =? 168) || (N_of_ascii e =? 169)))%N
          | _ => false
          end)
  end.

(** A text that holds no line boundary: one line. *)
Fixpoint breakfree (s : string) : bool :=
  match s with
  | "" => true
  | String c s1 => negb (starts_break s) && breakfree s1
  end.

(** What may happen at one place of the file system: a file gets a new
    content, or a file appears where nothing was. *)
Definition file_change (before after : option node) : Prop :=
  match before, after with
  | Some (File _), Some (File _) => True
  | None, Some (File _) => True
  | _, _ => before = after
  end.

(** The world went on: same working and home directories, the trace
    longer, the file system changed by [file_change] only. *)
Definition evolves (w w' : World) : Prop :=
  cwd w' = cwd w /\ home w' = home w /\
  (exists es, trace w' = trace w ++ es) /\
  forall q, file_change (nodes w !! q) (nodes w' !! q).

(** [evolves] with the credential as it was. *)
Definition evolves_quietly (w w' : World) : Prop :=
  evolves w w' /\ genai_key w' = genai_key w.

(** Every run of [c] relates the world before to the world after. *)
Definition steps {A} (R : World -> World -> Prop) (c : M A) : Prop :=
  forall w w' r, c w = (w', r) -> R w w'.

(** More sample documents and worlds. *)
Module More.

Definition doc_key_zero : dict := [("API", VDict [("API_KEY", VInt 0)])].

Definition doc_notes : dict :=
  [("title", VStr "notes"); ("API", VDict [("user", VStr "me")])].

Definition known : list dict :=
  Demo.known ++ [doc_key_zero; doc_notes; saved doc_notes "abc" Demo.cfg].

Definition loads (text : string) : option dict :=
  Demo.reread <$> List.find (fun doc => String.eqb (Demo.render doc) text) known.

Definition env : Env := mkEnv loads Demo.render (generate_content Demo.env).

Definition boom_loc : location := ["home"; "u"; "boom.py"].

(** [Demo.ready] with a file the model fails on. *)
Definition with_boom : World := store boom_loc "boom" Demo.ready.


End More.

(** * Properties *)

(** ** Lines, slices and joins *)

Section PyStrFacts.
Import PyStr.

Lemma slice_strip {A} (l : list A) :
  slice 1 (-1) l = take (length l - 2) (drop 1 l).
Proof.
  unfold slice, clamp. simpl.
  destruct l as [|x [|y l]]; [reflexivity | reflexivity |].
  replace (Z.to_nat _) with (length (x :: y :: l) - 2)%nat.
  2:{ cbn [length]. lia. }
  replace (Z.to_nat (Z.min 1 _)) with 1%nat; [reflexivity |].
  cbn [length]. lia.
Qed.

Lemma slice_strip_length {A} (l : list A) :
  length (slice 1 (-1) l) = (length l - 2)%nat.
Proof. rewrite slice_strip, length_take, length_drop. lia. Qed.

(** Entry [i] of the slice is entry [i + 1] of the list, up to [N - 2]. *)
Lemma slice_strip_lookup {A} (l : list A) (i : nat) :
  slice 1 (-1) l !! i =
  if decide (i < length l - 2)%nat then l !! S i else None.
Proof.
  rewrite slice_strip. case_decide as Hi.
  - rewrite lookup_take_lt by exact Hi. by rewrite lookup_drop.
  - apply lookup_ge_None. rewrite length_take, length_drop. lia.
Qed.

Lemma slice_strip_subseteq {A} (l : list A) : slice 1 (-1) l ⊆ l.
Proof.
  rewrite slice_strip. intros x Hx.
  apply elem_of_take in Hx as (i & Hx & _).
  rewrite lookup_drop in Hx. by eapply list_elem_of_lookup_2.
Qed.

Lemma break1_of_lf c : is_break1 c = false -> is_lf c = false.
Proof.
  unfold is_break1, is_lf. intros H.
  destruct (N_of_ascii c =? 10)%N; [discriminate | reflexivity].
Qed.

Lemma prepend_no_lf c ls :
  is_lf c = false ->
  Forall (fun l => has_lf l = false) ls ->
  Forall (fun l => has_lf l = false) (prepend c ls).
Proof.
  intros Hc Hls. destruct Hls as [|l ls Hl Hls]; cbn [prepend].
  - constructor; [by cbn [has_lf]; rewrite Hc | constructor].
  - constructor; [by cbn [has_lf]; rewrite Hc | exact Hls].
Qed.

(** No line of [splitlines] holds a line feed. *)
Lemma splitlines_no_lf s : Forall (fun l => has_lf l = false) (splitlines s).
Proof.
  remember (String.length s) as n eqn:Hn.
  assert (Hle : (String.length s <= n)%nat) by lia. clear Hn.
  revert s Hle. induction n as [|n IH]; intros s Hle.
  { destruct s; [constructor | cbn in Hle; lia]. }
  destruct s as [|c s1]; [constructor |].
  cbn [String.length] in Hle. cbn [splitlines].
  assert (H1 : Forall (fun l => has_lf l = false) (splitlines s1))
    by (apply IH; lia).
  assert (Hnil : has_lf "" = false) by reflexivity.
  destruct (is_break1 c) eqn:Hb; [by constructor |].
  apply break1_of_lf in Hb.
  destruct (is_cr c).
  { destruct s1 as [|d s2]; [by constructor |].
    destruct (is_lf d); [| by constructor].
    constructor; [done |]. apply IH. cbn in Hle. lia. }
  destruct (N_of_ascii c =? 194)%N.
  { destruct s1 as [|d s2]; [by apply prepend_no_lf |].
    destruct (N_of_ascii d =? 133)%N; [| by apply prepend_no_lf].
    constructor; [done |]. apply IH. cbn in Hle. lia. }
  destruct (N_of_ascii c =? 226)%N; [| by apply prepend_no_lf].
  destruct s1 as [|d [|e s3]]; try by apply prepend_no_lf.
  destruct (_ && _)%bool; [| by apply prepend_no_lf].
  constructor; [done |]. apply IH. cbn in Hle. lia.
Qed.

Lemma last_char_None s : last_char s = None -> s = "".
Proof.
  induction s as [|c s IH]; [done |].
  destruct s; [discriminate |]. intros H. by specialize (IH H).
Qed.

Lemma last_char_cons c s :
  last_char (String c s) =
  match last_char s with Some d => Some d | None => Some c end.
Proof.
  destruct s as [|d s]; [reflexivity |].
  change (last_char (String c (String d s))) with (last_char (String d s)).
  destruct (last_char (String d s)) eqn:H; [reflexivity |].
  by apply last_char_None in H.
Qed.

Lemma last_char_app a b :
  last_char (a +:+ b) =
  match last_char b with Some c => Some c | None => last_char a end.
Proof.
  induction a as [|c a IH].
  - change ("" +:+ b) with b. by destruct (last_char b).
  - change (String c a +:+ b) with (String c (a +:+ b)).
    rewrite !last_char_cons, IH. by destruct (last_char b), (last_char a).
Qed.

Lemma last_char_no_lf s c :
  has_lf s = false -> last_char s = Some c -> is_lf c = false.
Proof.
  induction s as [|c' s IH]; [discriminate |].
  cbn [has_lf]. intros [Hc Hs]%orb_false_elim.
  destruct s as [|c'' s]; cbn [last_char].
  - by intros [= <-].
  - intros H. by apply IH.
Qed.

(** The last character of a join: that of the last part, or the
    separator when the last part is empty and is not the only one. *)
Lemma join_last_char ls :
  last_char (join LF ls) =
  match last ls with
  | None => None
  | Some x =>
      match last_char x with
      | Some c => Some c
      | None => if decide (2 <= length ls)%nat then Some (chr 10) else None
      end
  end.
Proof.
  induction ls as [|x ls IH]; [reflexivity |].
  destruct ls as [|y ls].
  - cbn. by destruct (last_char x).
  - change (join LF (x :: y :: ls)) with (x +:+ LF +:+ join LF (y :: ls)).
    rewrite !last_char_app, IH.
    change (last (x :: y :: ls)) with (last (y :: ls)).
    destruct (last (y :: ls)) as [z|] eqn:Hz.
    2:{ by apply last_None in Hz. }
    destruct (last_char z) as [c|]; [reflexivity |].
    rewrite (decide_True (P := (2 <= length (x :: y :: ls))%nat))
      by (cbn [length]; lia).
    by case_decide.
Qed.

Lemma join_ends_with_newline ls :
  Forall (fun l => has_lf l = false) ls ->
  ends_with_newline (join LF ls) = true <->
  (2 <= length ls)%nat /\ last ls = Some "".
Proof.
  intros Hls. unfold ends_with_newline. rewrite join_last_char.
  destruct (last ls) as [x|] eqn:Hx.
  2:{ split; [discriminate | by intros [_ ?]]. }
  assert (Hxl : has_lf x = false).
  { apply last_Some_elem_of in Hx. by eapply Forall_forall in Hls. }
  destruct (last_char x) as [c|] eqn:Hc.
  - rewrite (last_char_no_lf _ _ Hxl Hc). split; [discriminate |].
    intros [_ [= ->]]. discriminate.
  - apply last_char_None in Hc as ->. case_decide; split; try done.
    + by intros [? _].
Qed.

End PyStrFacts.

(** ** Locations *)

Section FSFacts.
Import FS.

Implicit Types (fs : gmap (list string) node) (acc loc : location)
  (rest : list string)
  (follow : location -> list string -> option location).

Lemma plain_spec name :
  plain name = true ->
  String.eqb name ".." = false /\ (String.eqb name "." || String.eqb name "") = false.
Proof.
  unfold plain. intros [H1 H2]%andb_true_iff.
  by apply negb_true_iff in H1, H2.
Qed.

Lemma settled_from_app fs acc a b :
  settled_from fs acc (a ++ b) =
  settled_from fs acc a && settled_from fs (acc ++ a) b.
Proof.
  revert acc. induction a as [|x a IH]; intros acc; cbn [settled_from app].
  - by rewrite app_nil_r.
  - rewrite IH, <- (assoc_L (++) acc [x] a). cbn [app].
    by rewrite !andb_assoc.
Qed.

Lemma settled_removelast fs loc :
  settled fs loc = true -> settled fs (removelast loc) = true.
Proof.
  unfold settled. destruct (decide (loc = [])) as [->|Hne]; [done |].
  rewrite (app_removelast_last "" Hne) at 1.
  rewrite settled_from_app. by intros [? _]%andb_true_iff.
Qed.

(** Walking a settled path finds the path itself. *)
Lemma walk_settled follow fs acc rest :
  settled_from fs acc rest = true ->
  walk follow fs acc rest = Some (acc ++ rest).
Proof.
  revert acc. induction rest as [|name rest IH]; intros acc; cbn [settled_from walk].
  - intros _. by rewrite app_nil_r.
  - intros [[Hp Hl%bool_decide_eq_true]%andb_true_iff Hr]%andb_true_iff.
    apply plain_spec in Hp as [-> ->]. rewrite Hl, (IH _ Hr).
    by rewrite <- (assoc_L (++)).
Qed.

Lemma walk_keeps_settled follow fs :
  (forall a r l, settled fs a = true -> follow a r = Some l -> settled fs l = true) ->
  forall rest acc loc,
    settled fs acc = true ->
    walk follow fs acc rest = Some loc -> settled fs loc = true.
Proof.
  intros Hf. induction rest as [|name rest IH]; intros acc loc Hacc; cbn [walk].
  - by intros [= <-].
  - destruct (String.eqb name "..") eqn:Hdd.
    { apply IH. by apply settled_removelast. }
    destruct (String.eqb name "." || String.eqb name "") eqn:Hd; [by apply IH |].
    destruct (link_at fs (acc ++ [name])) as [t|] eqn:Hl.
    + destruct (follow _ _) as [acc'|] eqn:Hfo; [| done].
      apply IH. eapply Hf; [| exact Hfo]. by destruct (is_abs t).
    + apply IH. unfold settled. rewrite settled_from_app.
      apply andb_true_iff; split; [exact Hacc |].
      cbn [settled_from app]. unfold plain. rewrite Hdd, Hd.
      by rewrite bool_decide_eq_true_2.
Qed.

Lemma realpath_settled depth fs acc rest loc :
  settled fs acc = true ->
  realpath depth fs acc rest = Some loc -> settled fs loc = true.
Proof.
  revert acc rest loc. induction depth as [|depth IH]; intros acc rest loc; [done |].
  cbn [realpath]. intros Hacc. by apply walk_keeps_settled.
Qed.

(** What [resolve] returns resolves to itself. *)
Lemma realpath_fixed depth fs loc :
  settled fs loc = true -> realpath (S depth) fs [] loc = Some loc.
Proof. intros H. cbn [realpath]. by rewrite walk_settled. Qed.

(** Without links every path leads somewhere: the bound on the depth is
    never met. *)
Lemma walk_no_links follow fs acc rest :
  (forall q, link_at fs q = None) -> is_Some (walk follow fs acc rest).
Proof.
  intros Hl. revert acc. induction rest as [|name rest IH]; intros acc; cbn [walk].
  - eauto.
  - destruct (String.eqb name ".."); [apply IH |].
    destruct (_ || _); [apply IH |]. rewrite Hl. apply IH.
Qed.

Lemma locate_no_links (w : World) (p : Path) :
  (forall q, link_at (nodes w) q = None) -> is_Some (locate w p).
Proof. intros Hl. unfold locate. cbn [realpath]. by apply walk_no_links. Qed.

(** A walk in two pieces. *)
Lemma walk_app follow fs acc a b :
  walk follow fs acc (a ++ b) =
  match walk follow fs acc a with
  | Some acc' => walk follow fs acc' b
  | None => None
  end.
Proof.
  revert acc. induction a as [|name a IH]; intros acc; cbn [walk app]; [done |].
  destruct (String.eqb name ".."); [apply IH |].
  destruct (_ || _); [apply IH |].
  destruct (link_at fs (acc ++ [name])) as [t|]; [| apply IH].
  destruct (follow _ _); [apply IH | done].
Qed.

(** One more plain name that is no link: one more component. *)
Lemma locate_joinpath (w : World) (p : Path) (dir : location) (name : string) :
  locate w p = Some dir ->
  plain name = true ->
  link_at (nodes w) (dir ++ [name]) = None ->
  locate w (PyPath.joinpath p name) = Some (dir ++ [name]).
Proof.
  unfold locate. cbn [realpath PyPath.joinpath is_abs parts].
  intros Hp [Hdd Hd]%plain_spec Hl. rewrite walk_app, Hp. cbn [walk].
  by rewrite Hdd, Hd, Hl.
Qed.

Lemma walk_mono follow follow' fs :
  (forall a r l, follow a r = Some l -> follow' a r = Some l) ->
  forall rest acc loc,
    walk follow fs acc rest = Some loc -> walk follow' fs acc rest = Some loc.
Proof.
  intros Hf. induction rest as [|name rest IH]; intros acc loc; cbn [walk]; [done |].
  destruct (String.eqb name ".."); [by apply IH |].
  destruct (_ || _); [by apply IH |].
  destruct (link_at fs (acc ++ [name])) as [t|]; [| by apply IH].
  destruct (follow _ _) as [acc'|] eqn:Hfo; [| done].
  rewrite (Hf _ _ _ Hfo). by apply IH.
Qed.

(** More depth does not change an answer. *)
Lemma realpath_mono depth depth' fs acc rest loc :
  (depth <= depth')%nat ->
  realpath depth fs acc rest = Some loc ->
  realpath depth' fs acc rest = Some loc.
Proof.
  revert depth' acc rest loc.
  induction depth as [|depth IH]; intros depth' acc rest loc Hle; [done |].
  destruct depth' as [|depth']; [lia |]. cbn [realpath].
  apply walk_mono. intros a r l. apply IH. lia.
Qed.

Lemma walk_ext follow follow' fs fs' :
  (forall a r, follow a r = follow' a r) ->
  (forall q, link_at fs q = link_at fs' q) ->
  forall rest acc, walk follow fs acc rest = walk follow' fs' acc rest.
Proof.
  intros Hf Hl. induction rest as [|name rest IH]; intros acc; cbn [walk]; [done |].
  rewrite Hl. destruct (String.eqb name ".."); [by apply IH |].
  destruct (_ || _); [by apply IH |].
  destruct (link_at fs' _) as [t|]; [| by apply IH].
  rewrite Hf. destruct (follow' _ _); [by apply IH | done].
Qed.

(** [realpath] looks at the links of the file system only. *)
Lemma realpath_ext depth fs fs' acc rest :
  (forall q, link_at fs q = link_at fs' q) ->
  realpath depth fs acc rest = realpath depth fs' acc rest.
Proof.
  intros Hl. revert acc rest.
  induction depth as [|depth IH]; intros acc rest; [done |].
  cbn [realpath]. by apply walk_ext.
Qed.

Lemma settled_from_ext fs fs' :
  (forall q, link_at fs q = link_at fs' q) ->
  forall rest acc, settled_from fs acc rest = settled_from fs' acc rest.
Proof.
  intros Hl. induction rest as [|name rest IH]; intros acc; cbn [settled_from]; [done |].
  by rewrite IH, Hl.
Qed.

Lemma link_at_insert_file fs loc s q :
  link_at fs loc = None ->
  link_at (<[loc := File s]> fs) q = link_at fs q.
Proof.
  intros Hl. unfold link_at in *. destruct (decide (loc = q)) as [<-|Hne].
  - rewrite lookup_insert_eq. by destruct (fs !! loc) as [[]|].
  - by rewrite lookup_insert_ne.
Qed.

Lemma writable_no_link fs loc : writable fs loc = true -> link_at fs loc = None.
Proof.
  unfold writable, node_at, link_at. destruct loc; [done |].
  by destruct (fs !! _) as [[]|].
Qed.

Lemma size_insert_le fs loc (n : node) : (size fs <= size (<[loc := n]> fs))%nat.
Proof.
  destruct (fs !! loc) eqn:H.
  - by rewrite map_size_insert_Some.
  - rewrite map_size_insert_None by done. lia.
Qed.

End FSFacts.

(** ** The operations of the system *)

Ltac unfold_m :=
  unfold mbind, M_bind, mret, M_ret, bind, ret, lift, raise, try_except, log in *.

Section SysFacts.

Implicit Types (w : World) (p : Path) (loc : location).

Lemma emit_emit es1 es2 w : emit es2 (emit es1 w) = emit (es1 ++ es2) w.
Proof. unfold emit. cbn. by rewrite (assoc_L (++)). Qed.

Lemma emit_store es loc s w : emit es (store loc s w) = store loc s (emit es w).
Proof. reflexivity. Qed.

Lemma locate_emit es w p : FS.locate (emit es w) p = FS.locate w p.
Proof. reflexivity. Qed.

Lemma locate_set_key v w p : FS.locate (set_key v w) p = FS.locate w p.
Proof. reflexivity. Qed.

(** Storing a file where no link is moves no path. *)
Lemma locate_store w p loc l s :
  FS.link_at (nodes w) loc = None ->
  FS.locate w p = Some l -> FS.locate (store loc s w) p = Some l.
Proof.
  unfold FS.locate. cbn [nodes cwd store]. intros Hl H.
  rewrite (realpath_ext _ _ (nodes w)).
  2:{ intros q. by apply link_at_insert_file. }
  eapply realpath_mono; [| exact H].
  pose proof (size_insert_le (nodes w) loc (File s)). lia.
Qed.

Lemma wf_emit es w : wf (emit es w) = wf w.
Proof. reflexivity. Qed.

Lemma wf_set_key v w : wf (set_key v w) = wf w.
Proof. reflexivity. Qed.

Lemma wf_store w loc s :
  FS.link_at (nodes w) loc = None -> wf (store loc s w) = wf w.
Proof.
  intros Hl. unfold wf, FS.settled. cbn [nodes cwd store].
  apply settled_from_ext. intros q. by apply link_at_insert_file.
Qed.

Lemma locate_settled w p loc :
  wf w = true -> FS.locate w p = Some loc -> FS.settled (nodes w) loc = true.
Proof.
  unfold wf, FS.locate. intros Hw. apply realpath_settled.
  by destruct (is_abs p).
Qed.

(** What [resolve] returns leads to itself. *)
Lemma locate_resolved w p loc :
  wf w = true -> FS.locate w p = Some loc ->
  FS.locate w (mkPath true loc) = Some loc.
Proof.
  intros Hw Hp. unfold FS.locate. cbn [is_abs parts].
  apply realpath_fixed. by eapply locate_settled.
Qed.

Lemma resolve_run w p loc :
  FS.locate w p = Some loc -> Sys.resolve p w = (w, Ok (mkPath true loc)).
Proof. unfold Sys.resolve. by intros ->. Qed.

Lemma read_text_file w p loc s :
  FS.locate w p = Some loc -> FS.node_at (nodes w) loc = Some (File s) ->
  Sys.read_text p w = (emit [Read loc] w, Ok s).
Proof. unfold Sys.read_text. by intros -> ->. Qed.


Lemma write_text_run w p loc s :
  FS.locate w p = Some loc -> FS.writable (nodes w) loc = true ->
  Sys.write_text p s w = (emit [Write loc s] (store loc s w), Ok tt).
Proof.
  unfold Sys.write_text, FS.writable. intros ->.
  by destruct (FS.node_at (nodes w) loc) as [[]|].
Qed.

Lemma exists_run w p loc :
  FS.locate w p = Some loc ->
  Sys.exists_ p w = (w, Ok (bool_decide (is_Some (FS.node_at (nodes w) loc)))).
Proof. unfold Sys.exists_. by intros ->. Qed.

Lemma node_at_store_eq w loc s :
  loc <> [] -> FS.node_at (nodes (store loc s w)) loc = Some (File s).
Proof.
  intros Hne. unfold FS.node_at. cbn [nodes store].
  destruct loc; [done |]. by rewrite lookup_insert_eq.
Qed.

Lemma file_not_root w loc s :
  FS.node_at (nodes w) loc = Some (File s) -> loc <> [].
Proof. by intros H ->. Qed.


Lemma file_writable w loc s :
  FS.node_at (nodes w) loc = Some (File s) -> FS.writable (nodes w) loc = true.
Proof. unfold FS.writable. by intros ->. Qed.


(** The last component of a location has a name. *)
Lemma settled_last_named fs loc :
  FS.settled fs loc = true -> loc <> [] -> String.eqb (List.last loc "") "" = false.
Proof.
  intros Hs Hne. unfold FS.settled in Hs.
  rewrite (app_removelast_last "" Hne) in Hs.
  rewrite settled_from_app in Hs. apply andb_true_iff in Hs as [_ Hs].
  cbn [FS.settled_from] in Hs.
  apply andb_true_iff in Hs as [[Hp _]%andb_true_iff _].
  apply plain_spec in Hp as [_ Hp]. by apply orb_false_elim in Hp as [_ ?].
Qed.

End SysFacts.

(** ** The documentation pipeline *)

Section Pipeline.

Context (E : Env).

Implicit Types (w : World) (file : Path) (loc : location)
  (model : GenerativeModel).

(** Where the result of [file] goes when [file] leads to [loc]. *)
Lemma output_file_replace w file loc :
  FS.locate w file = Some loc ->
  Main.output_file file true w = (w, Ok (mkPath true loc)).
Proof. intros H. unfold Main.output_file. by apply resolve_run. Qed.

Lemma output_file_sibling w file loc :
  FS.locate w file = Some loc ->
  Main.output_file file false w =
  (w, if String.eqb (List.last loc "") "" then Raise ValueError
      else Ok (PyPath.joinpath (PyPath.parent (mkPath true loc))
                               ("doc_" +:+ PyPath.name file))).
Proof.
  intros H. unfold Main.output_file. unfold_m. rewrite (resolve_run _ _ _ H).
  unfold PyPath.with_name, PyPath.name. cbn [parts is_abs].
  by destruct (String.eqb _ _).
Qed.

Lemma output_file_loop w file replace :
  FS.locate w file = None ->
  Main.output_file file replace w = (w, Raise RuntimeError).
Proof.
  intros H. unfold Main.output_file, Sys.resolve. unfold_m.
  destruct replace; by rewrite H.
Qed.

(** When the input is a directory path and a name that is no link, the
    output path of [replace = false] and the parent directory of the
    input joined with the prefixed name lead to the same place. *)
Lemma output_file_sibling_plain w dirpath name dir :
  wf w = true ->
  FS.locate w dirpath = Some dir ->
  FS.plain name = true ->
  FS.link_at (nodes w) (dir ++ [name]) = None ->
  FS.link_at (nodes w) (dir ++ ["doc_" +:+ name]) = None ->
  let file := PyPath.joinpath dirpath name in
  let claimed := PyPath.joinpath (PyPath.parent file) ("doc_" +:+ PyPath.name file) in
  exists out,
    Main.output_file file false w = (w, Ok out) /\
    FS.locate w out = Some (dir ++ ["doc_" +:+ name]) /\
    FS.locate w claimed = Some (dir ++ ["doc_" +:+ name]).
Proof.
  intros Hwf Hdir Hplain Hl Hld. cbv zeta.
  assert (Hname : PyPath.name (PyPath.joinpath dirpath name) = name).
  { unfold PyPath.name, PyPath.joinpath. cbn [parts]. by rewrite last_last. }
  assert (Hparent : PyPath.parent (PyPath.joinpath dirpath name) = dirpath).
  { unfold PyPath.parent, PyPath.joinpath. cbn [parts is_abs].
    rewrite removelast_last. by destruct dirpath. }
  assert (Hdoc : FS.plain ("doc_" +:+ name) = true) by reflexivity.
  pose proof (locate_joinpath w dirpath dir name Hdir Hplain Hl) as Hfile.
  rewrite (output_file_sibling w _ _ Hfile), Hname, Hparent.
  rewrite last_last. apply plain_spec in Hplain as [_ [_ Hne]%orb_false_elim].
  rewrite Hne. eexists. split; [reflexivity |].
  unfold PyPath.parent, PyPath.joinpath. cbn [parts is_abs].
  rewrite removelast_last. split.
  - change (mkPath true (dir ++ ["doc_" +:+ name]))
      with (PyPath.joinpath (mkPath true dir) ("doc_" +:+ name)).
    apply locate_joinpath; [| done..]. by eapply locate_resolved.
  - change (mkPath (is_abs dirpath) (parts dirpath ++ ["doc_" +:+ name]))
      with (PyPath.joinpath dirpath ("doc_" +:+ name)).
    by apply locate_joinpath.
Qed.

(** One round of the loop on a file that is there. *)
Lemma handling_files_cons w file files replace model loc content response out oloc :
  wf w = true ->
  FS.locate w file = Some loc ->
  FS.node_at (nodes w) loc = Some (File content) ->
  generate_content E (trace w ++ [Read loc]) (genai_key w) model content = Some response ->
  Main.output_file file replace w = (w, Ok out) ->
  FS.locate w out = Some oloc ->
  FS.writable (nodes w) oloc = true ->
  Main.handling_files E (file :: files) replace model w =
  Main.handling_files E files replace model
    (emit [Read loc; Request model content; Write oloc (Main.doc_code response);
           Echo ("Documentation for " +:+ PyPath.name file +:+ " ready")]
          (store oloc (Main.doc_code response) w)).
Proof.
  intros Hw Hloc Hnode Hgen Hout Holoc Hwr.
  cbn [Main.handling_files]. unfold_m. rewrite Hout.
  rewrite (resolve_run _ _ _ Hloc).
  rewrite (read_text_file _ _ loc content) by eauto using locate_resolved.
  unfold generate_text. cbn [trace genai_key emit]. rewrite Hgen.
  erewrite write_text_run; [| by rewrite !locate_emit | exact Hwr].
  unfold Sys.echo. unfold_m.
  rewrite !emit_store, !emit_emit. reflexivity.
Qed.

(** The round in place: the file is read and written at [loc]. *)
Lemma handling_files_cons_replace w file files model loc content response :
  wf w = true ->
  FS.locate w file = Some loc ->
  FS.node_at (nodes w) loc = Some (File content) ->
  generate_content E (trace w ++ [Read loc]) (genai_key w) model content = Some response ->
  Main.handling_files E (file :: files) true model w =
  Main.handling_files E files true model
    (emit [Read loc; Request model content; Write loc (Main.doc_code response);
           Echo ("Documentation for " +:+ PyPath.name file +:+ " ready")]
          (store loc (Main.doc_code response) w)).
Proof.
  intros Hw Hloc Hnode Hgen.
  eapply handling_files_cons; eauto using output_file_replace,
    locate_resolved, file_writable.
Qed.



End Pipeline.

(** ** Well-formed worlds stay so *)

Create HintDb keeps.

Section Keeps.

Context (E : Env).

Lemma keeps_ret {A} (a : A) : keeps (mret a).
Proof. intros w w' r Hw [= <- _]. exact Hw. Qed.

Lemma keeps_raise {A} e : keeps (@raise A e).
Proof. intros w w' r Hw [= <- _]. exact Hw. Qed.

Lemma keeps_lift {A} (x : result A) : keeps (lift x).
Proof. intros w w' r Hw [= <- _]. exact Hw. Qed.

Lemma keeps_bind {A B} (c : M A) (k : A -> M B) :
  keeps c -> (forall a, keeps (k a)) -> keeps (c ≫= k).
Proof.
  intros Hc Hk w w' r Hw. unfold_m.
  destruct (c w) as [w1 [a|e]] eqn:H1.
  - apply (Hk a). by eapply Hc.
  - intros [= <- _]. by eapply Hc.
Qed.


Lemma keeps_log e : keeps (log e).
Proof. intros w w' r Hw [= <- _]. exact Hw. Qed.

Lemma keeps_resolve p : keeps (Sys.resolve p).
Proof.
  intros w w' r Hw. unfold Sys.resolve.
  destruct (FS.locate w p); by intros [= <- _].
Qed.

Lemma keeps_exists p : keeps (Sys.exists_ p).
Proof.
  intros w w' r Hw. unfold Sys.exists_.
  destruct (FS.locate w p); by intros [= <- _].
Qed.

Lemma keeps_path_home : keeps Sys.path_home.
Proof. intros w w' r Hw [= <- _]. exact Hw. Qed.

Lemma keeps_configure v : keeps (Sys.configure v).
Proof. intros w w' r Hw [= <- _]. exact Hw. Qed.

Lemma keeps_read_text p : keeps (Sys.read_text p).
Proof.
  intros w w' r Hw. unfold Sys.read_text.
  destruct (FS.locate w p) as [loc|]; [| by intros [= <- _]].
  destruct (FS.node_at (nodes w) loc) as [[]|]; by intros [= <- _].
Qed.

Lemma keeps_write_text p s : keeps (Sys.write_text p s).
Proof.
  intros w w' r Hw. unfold Sys.write_text.
  destruct (FS.locate w p) as [loc|]; [| by intros [= <- _]].
  destruct (FS.node_at (nodes w) loc) as [[]|] eqn:Hn; intros [= <- _]; try done.
  all: rewrite wf_emit, wf_store; [done |].
  all: apply writable_no_link; unfold FS.writable; by rewrite Hn.
Qed.

Lemma keeps_generate_text model content : keeps (generate_text E model content).
Proof.
  intros w w' r Hw. unfold generate_text.
  destruct (generate_content _ _ _ _ _); by intros [= <- _].
Qed.

Lemma keeps_toml_load p : keeps (Toml.load E p).
Proof.
  apply keeps_bind; [apply keeps_read_text |].
  intros text. destruct (toml_loads E text); [apply keeps_ret | apply keeps_raise].
Qed.

#[local] Hint Resolve keeps_ret keeps_raise keeps_lift keeps_log keeps_resolve
  keeps_exists keeps_path_home keeps_configure keeps_read_text
  keeps_write_text keeps_generate_text keeps_toml_load : keeps.






End Keeps.

(** ** Reading the configuration *)

Section Configuration.

Context (E : Env).

Implicit Types (w : World) (p : Path) (loc : location) (doc : dict).

Lemma toml_load_run w p loc text :
  FS.locate w p = Some loc ->
  FS.node_at (nodes w) loc = Some (File text) ->
  Toml.load E p w =
  (emit [Read loc] w,
   match toml_loads E text with
   | Some doc => Ok doc
   | None => Raise TomlDecodeError
   end).
Proof.
  intros Hloc Hnode. unfold Toml.load. unfold_m.
  rewrite (read_text_file _ _ _ _ Hloc Hnode).
  by destruct (toml_loads E text).
Qed.

(** [load_config] on a file that parses: the key, [False] for a
    [KeyError], any other exception as it is. *)
Lemma load_config_run w p loc text doc :
  FS.locate w p = Some loc ->
  FS.node_at (nodes w) loc = Some (File text) ->
  toml_loads E text = Some doc ->
  Main.load_config E p w =
  (emit [Read loc] w,
   match api_key_of doc with
   | Ok v => Ok v
   | Raise e => if is_KeyError e then Ok (VBool false) else Raise e
   end).
Proof.
  intros Hloc Hnode Hdoc. unfold Main.load_config. unfold_m.
  rewrite (toml_load_run _ _ _ _ Hloc Hnode), Hdoc.
  unfold api_key_of.
  destruct (PyDict.getitem (VDict doc) "API") as [api|e]; [| by destruct e].
  destruct (PyDict.getitem api "API_KEY") as [v|e]; [done | by destruct e].
Qed.

(** [init_config] when the file is there and parses. *)
Lemma init_config_present w loc text doc :
  FS.locate w (default_config_path w) = Some loc ->
  FS.node_at (nodes w) loc = Some (File text) ->
  toml_loads E text = Some doc ->
  Main.init_config E w =
  match api_key_of doc with
  | Ok v =>
      if is_False v then (emit [Read loc; Echo no_key_msg] w, Raise (Exit 1))
      else (set_key v (emit [Read loc] w), Ok tt)
  | Raise e =>
      if is_KeyError e then (emit [Read loc; Echo no_key_msg] w, Raise (Exit 1))
      else (emit [Read loc] w, Raise e)
  end.
Proof.
  intros Hloc Hnode Hdoc. unfold Main.init_config, Sys.path_home. unfold_m.
  fold (default_config_path w).
  rewrite (exists_run _ _ _ Hloc), Hnode.
  rewrite bool_decide_eq_true_2 by eauto. cbn [negb].
  rewrite (load_config_run _ _ _ _ _ Hloc Hnode Hdoc).
  unfold Sys.echo, Sys.configure. unfold_m.
  destruct (api_key_of doc) as [v|e].
  - destruct (is_False v); [by rewrite emit_emit | done].
  - destruct (is_KeyError e); cbn [is_False]; [by rewrite emit_emit | done].
Qed.



End Configuration.

(** ** Dictionaries *)

Section DictFacts.
Import PyDict.

Implicit Types (d : dict) (k : string) (v : value).

Lemma get_set_eq d k v : get (set d k v) k = Some v.
Proof.
  induction d as [|[k' v'] d IH]; cbn [set get].
  - by rewrite String.eqb_refl.
  - destruct (String.eqb k' k) eqn:Hk; cbn [get]; by rewrite Hk.
Qed.

Lemma get_set_ne d k k' v : k <> k' -> get (set d k v) k' = get d k'.
Proof.
  intros Hne. induction d as [|[k0 v0] d IH]; cbn [set get].
  - by apply String.eqb_neq in Hne as ->.
  - destruct (String.eqb k0 k) eqn:Hk; cbn [get]; [| by rewrite IH].
    apply String.eqb_eq in Hk as ->. by apply String.eqb_neq in Hne as ->.
Qed.

Lemma mem_set_eq d k v : mem (set d k v) k = true.
Proof. unfold mem. by rewrite get_set_eq. Qed.

Lemma mem_set_ne d k k' v : k <> k' -> mem (set d k v) k' = mem d k'.
Proof. intros H. unfold mem. by rewrite get_set_ne. Qed.

Lemma set_set_eq d k v v' : set (set d k v) k v' = set d k v'.
Proof.
  induction d as [|[k0 v0] d IH]; cbn [set].
  - by rewrite String.eqb_refl.
  - destruct (String.eqb k0 k) eqn:Hk; cbn [set]; rewrite Hk; [done | by rewrite IH].
Qed.

(** Two keys are set in either order when the first is there already. *)
Lemma set_comm d k k' v v' :
  k <> k' -> mem d k = true ->
  set (set d k v) k' v' = set (set d k' v') k v.
Proof.
  intros Hne. unfold mem.
  induction d as [|[k0 v0] d IH]; cbn [get set]; [done |].
  destruct (String.eqb k0 k) eqn:Hk.
  - intros _. apply String.eqb_eq in Hk as ->.
    apply String.eqb_neq in Hne as Hne'. cbn [set]. rewrite Hne'.
    cbn [set]. by rewrite String.eqb_refl.
  - intros Hm. cbn [set].
    destruct (String.eqb k0 k') eqn:Hk'; cbn [set]; rewrite Hk; [done |].
    by rewrite IH.
Qed.

Lemma set_get d k v : get d k = Some v -> set d k v = d.
Proof.
  induction d as [|[k0 v0] d IH]; cbn [get set]; [done |].
  destruct (String.eqb k0 k); [by intros [= ->] | intros H; by rewrite IH].
Qed.

Lemma keys_set d k v :
  keys (set d k v) = if mem d k then keys d else keys d ++ [k].
Proof.
  unfold mem, keys. induction d as [|[k0 v0] d IH]; cbn [get set map fst]; [done |].
  destruct (String.eqb k0 k) eqn:Hk; cbn [map fst]; [done |].
  rewrite IH. by destruct (get d k).
Qed.

Lemma mem_keys d k : mem d k = true <-> k ∈ keys d.
Proof.
  unfold mem, keys. induction d as [|[k0 v0] d IH]; cbn [get map fst].
  - split; [done | by intros ?%elem_of_nil].
  - rewrite elem_of_cons. destruct (String.eqb k0 k) eqn:Hk.
    + apply String.eqb_eq in Hk as ->. by split; [left |].
    + apply String.eqb_neq in Hk. rewrite IH. split; [by right |].
      by intros [-> | ?].
Qed.

(** Setting a key makes no key appear twice. *)
Lemma keys_set_NoDup d k v : NoDup (keys d) -> NoDup (keys (set d k v)).
Proof.
  intros Hd. rewrite keys_set. destruct (mem d k) eqn:Hm; [done |].
  apply NoDup_app. split_and!; [done | | apply NoDup_singleton].
  intros x Hx ->%list_elem_of_singleton.
  apply mem_keys in Hx. congruence.
Qed.

End DictFacts.

(** ** Writing the configuration *)

Section Saving.

Context (E : Env).

Implicit Types (w : World) (p : Path) (loc : location) (doc : dict).


(** [config] on a file that parses and whose sections are tables or
    free: the document is completed and dumped over the file. *)
Lemma config_saves w api_key p loc text doc :
  FS.locate w p = Some loc ->
  FS.node_at (nodes w) loc = Some (File text) ->
  toml_loads E text = Some doc ->
  table_or_free doc "API" = true ->
  table_or_free doc "PATH" = true ->
  let text' := toml_dumps E (saved doc api_key p) in
  Main.config E api_key p w =
  (emit [Read loc; Write loc text'] (store loc text' w), Ok tt).
Proof.
  intros Hloc Hnode Hdoc HA HP. cbv zeta.
  unfold Main.config, Toml.dump. unfold_m.
  rewrite (toml_load_run E w p loc text Hloc Hnode), Hdoc.
  assert (Hwrite : forall doc',
    Sys.write_text p (toml_dumps E doc') (emit [Read loc] w) =
    (emit [Read loc; Write loc (toml_dumps E doc')]
          (store loc (toml_dumps E doc') w), Ok tt)).
  { intros doc'. erewrite write_text_run;
      [| by rewrite locate_emit | by eapply file_writable].
    by rewrite emit_store, emit_emit. }
  unfold table_or_free, saved, saved_as, table_at in *.
  assert (Hne : "API" <> "PATH") by done.
  assert (Hne' : "PATH" <> "API") by done.
  destruct (PyDict.get doc "API") as [[| | | |ta|]|] eqn:HgA; try discriminate;
  destruct (PyDict.get doc "PATH") as [[| | | |tp|]|] eqn:HgP; try discriminate;
  unfold PyDict.mem;
  repeat first
    [ rewrite HgA | rewrite HgP | rewrite get_set_eq
    | rewrite get_set_ne by done
    | progress cbn [negb PyDict.getitem PyDict.setitem] ];
  rewrite Hwrite.
  - reflexivity.
  - rewrite <- (set_comm doc "API" "PATH") by (unfold PyDict.mem; by rewrite ?HgA).
    by rewrite set_set_eq.
  - by rewrite set_set_eq.
  - rewrite <- (set_comm _ "API" "PATH") by (by rewrite ?mem_set_eq).
    by rewrite !set_set_eq.
Qed.

(** [config] when a section is there and is no table: nothing is
    written. *)
Lemma config_no_table w api_key p loc text doc :
  FS.locate w p = Some loc ->
  FS.node_at (nodes w) loc = Some (File text) ->
  toml_loads E text = Some doc ->
  table_or_free doc "API" && table_or_free doc "PATH" = false ->
  Main.config E api_key p w = (emit [Read loc] w, Raise TypeError).
Proof.
  intros Hloc Hnode Hdoc Hbad.
  unfold Main.config, Toml.dump. unfold_m.
  rewrite (toml_load_run E w p loc text Hloc Hnode), Hdoc.
  unfold table_or_free in Hbad.
  assert (Hne : "API" <> "PATH") by done.
  assert (Hne' : "PATH" <> "API") by done.
  destruct (PyDict.get doc "API") as [[| | | |ta|]|] eqn:HgA;
  destruct (PyDict.get doc "PATH") as [[| | | |tp|]|] eqn:HgP;
    try discriminate;
  unfold PyDict.mem;
  repeat first
    [ rewrite HgA | rewrite HgP | rewrite get_set_eq
    | rewrite get_set_ne by done
    | progress cbn [negb PyDict.getitem PyDict.setitem] ];
  reflexivity.
Qed.

Lemma table_at_saved_as_API doc api_key pv :
  table_at (saved_as doc api_key pv) "API" =
  PyDict.set (table_at doc "API") "API_KEY" (VStr api_key).
Proof.
  unfold saved_as. unfold table_at at 1.
  by rewrite get_set_ne, get_set_eq.
Qed.

Lemma table_at_saved_as_PATH doc api_key pv :
  table_at (saved_as doc api_key pv) "PATH" =
  PyDict.set (table_at doc "PATH") "PATH" pv.
Proof. unfold saved_as. unfold table_at at 1. by rewrite get_set_eq. Qed.



(** The key that was saved is the key that is found. *)
Lemma api_key_of_saved_as doc api_key pv :
  api_key_of (saved_as doc api_key pv) = Ok (VStr api_key).
Proof.
  unfold api_key_of, saved_as. cbn [PyDict.getitem].
  rewrite get_set_ne, get_set_eq by done. cbn [PyDict.getitem].
  by rewrite get_set_eq.
Qed.

Lemma saved_as_tables doc api_key pv :
  table_or_free (saved_as doc api_key pv) "API" = true /\
  table_or_free (saved_as doc api_key pv) "PATH" = true /\
  PyDict.mem (saved_as doc api_key pv) "API" = true /\
  PyDict.mem (saved_as doc api_key pv) "PATH" = true.
Proof.
  unfold table_or_free, PyDict.mem, saved_as.
  by rewrite get_set_eq, get_set_ne, get_set_eq.
Qed.

Lemma saved_as_NoDup doc api_key pv :
  NoDup (PyDict.keys doc) -> NoDup (PyDict.keys (saved_as doc api_key pv)).
Proof. intros H. unfold saved_as. by do 2 apply keys_set_NoDup. Qed.

(** Saving over a saved document gives the saved document. *)
Lemma saved_saved_as doc api_key p pv :
  saved (saved_as doc api_key pv) api_key p = saved doc api_key p.
Proof.
  unfold saved at 1. unfold saved_as at 1.
  rewrite table_at_saved_as_API, table_at_saved_as_PATH.
  rewrite !set_set_eq. unfold saved, saved_as.
  set (A := VDict (PyDict.set (table_at doc "API") "API_KEY" (VStr api_key))).
  rewrite <- (set_comm _ "API" "PATH") by (by rewrite ?mem_set_eq).
  by rewrite !set_set_eq.
Qed.

End Saving.

(** * The claims *)

(** ** One file through the pipeline *)

Section OneRound.

Context (E : Env) (w : World) (file : Path) (replace : bool)
  (model : GenerativeModel).

(** The file is there with [content], the model answers [response], the
    result goes to [oloc]. *)
Context (loc : location) (content response : string) (out : Path) (oloc : location).

Hypothesis Hwf : wf w = true.
Hypothesis Hloc : FS.locate w file = Some loc.
Hypothesis Hnode : FS.node_at (nodes w) loc = Some (File content).
Hypothesis Hgen :
  generate_content E (trace w ++ [Read loc]) (genai_key w) model content = Some response.
Hypothesis Hout : Main.output_file file replace w = (w, Ok out).
Hypothesis Holoc : FS.locate w out = Some oloc.
Hypothesis Hwr : FS.writable (nodes w) oloc = true.

Lemma round_run :
  Main.handling_files E [file] replace model w =
  (emit [Read loc; Request model content; Write oloc (Main.doc_code response);
         Echo ("Documentation for " +:+ PyPath.name file +:+ " ready")]
        (store oloc (Main.doc_code response) w),
   Ok tt).
Proof. by erewrite handling_files_cons. Qed.

Lemma round_persisted :
  FS.node_at (nodes (Main.handling_files E [file] replace model w).1) oloc =
  Some (File (Main.doc_code response)).
Proof.
  rewrite round_run. cbn [fst]. rewrite emit_store.
  apply node_at_store_eq. intros ->. by cbv in Hwr.
Qed.

(** C1, amended: the content persisted for a file is lines 1 to N - 2
    of the N lines of the answer, joined by line feeds, when N is at
    least 2; it is empty when N is 1 and when N is 0, and the run goes
    on without an exception in every case. *)
Theorem persisted_lines :
  let lines := PyStr.splitlines response in
  let n := length lines in
  let r := Main.handling_files E [file] replace model w in
  r.2 = Ok tt /\
  FS.node_at (nodes r.1) oloc =
  Some (File (if decide (2 <= n)%nat
              then PyStr.join PyStr.LF (take (n - 2) (drop 1 lines))
              else "")).
Proof.
  cbv zeta. split; [by rewrite round_run |].
  rewrite round_persisted. do 2 f_equal.
  unfold Main.doc_code. rewrite slice_strip.
  case_decide as Hn; [reflexivity |].
  replace (length (PyStr.splitlines response) - 2)%nat with 0%nat by lia.
  reflexivity.
Qed.

(** C10, amended: the content written for a file ends with a line feed
    exactly when the answer has at least four lines and the line before
    its last one is empty; no line feed is added after the last line
    kept. *)
Theorem persisted_final_newline :
  let lines := PyStr.splitlines response in
  let n := length lines in
  exists body,
    FS.node_at (nodes (Main.handling_files E [file] replace model w).1) oloc =
    Some (File body) /\
    (PyStr.ends_with_newline body = true <->
     (4 <= n)%nat /\ lines !! (n - 2)%nat = Some "").
Proof.
  cbv zeta. exists (Main.doc_code response). split; [apply round_persisted |].
  unfold Main.doc_code.
  rewrite join_ends_with_newline.
  2:{ rewrite Forall_forall. intros l Hl%slice_strip_subseteq.
      by eapply Forall_forall in Hl; [| apply splitlines_no_lf]. }
  rewrite slice_strip_length, last_lookup, slice_strip_length.
  set (lines := PyStr.splitlines response).
  destruct (decide (4 <= length lines)%nat) as [H4|H4].
  - rewrite slice_strip_lookup, decide_True by lia.
    replace (S (Nat.pred (length lines - 2))) with (length lines - 2)%nat by lia.
    split; [intros [_ ?] | intros [_ ?]]; split; (lia || done).
  - split; intros [? _]; lia.
Qed.

End OneRound.

(** ** Where the result goes *)

(** C2, amended: the output path is computed from the resolution of the
    input path (absolute, [".."] and symbolic links followed).  When
    [replace] is true it is that resolved path, the one that is read; when
    [replace] is false it is the parent directory of the resolved path
    joined with ["doc_"] and the name of the path as given, and
    [ValueError] is raised when the resolved path is the root.  For an
    input that is its own resolution this is what the claim says. *)
Theorem output_file_resolved (w : World) (file : Path) (loc : location) :
  FS.locate w file = Some loc ->
  Main.output_file file true w = (w, Ok (mkPath true loc)) /\
  Sys.resolve file w = (w, Ok (mkPath true loc)) /\
  Main.output_file file false w =
    (w, if String.eqb (PyPath.name (mkPath true loc)) "" then Raise ValueError
        else Ok (PyPath.joinpath (PyPath.parent (mkPath true loc))
                                 ("doc_" +:+ PyPath.name file))) /\
  (file = mkPath true loc ->
   Main.output_file file true w = (w, Ok file) /\
   (String.eqb (PyPath.name file) "" = false ->
    Main.output_file file false w =
    (w, Ok (PyPath.joinpath (PyPath.parent file) ("doc_" +:+ PyPath.name file))))).
Proof.
  intros Hloc.
  pose proof (output_file_replace w file loc Hloc) as Ht.
  pose proof (output_file_sibling w file loc Hloc) as Hf.
  split_and!; [exact Ht | by apply resolve_run | exact Hf |].
  intros Hfile. split; [by rewrite Hfile at 2 |].
  intros Hname. rewrite Hf. rewrite <- Hfile.
  unfold PyPath.name in Hname. rewrite Hfile in Hname at 1. cbn [parts] in Hname.
  by rewrite Hname.
Qed.

(** ** A missing source file *)


(** ** A missing configuration file *)


(** ** No key *)


(** C9: a configuration file whose [API.API_KEY] is the boolean [false]
    makes [load_config] return [False], the value it returns for a
    missing key, and [document] ends with exit status 1 after the hint,
    as it does with no key; the value is not set as the credential. *)
Theorem false_key_is_no_key (E : Env) (w : World) (files : list Path)
    (replace : bool) (language : option string) (loc : location)
    (text : string) (doc : dict) :
  FS.locate w (default_config_path w) = Some loc ->
  FS.node_at (nodes w) loc = Some (File text) ->
  toml_loads E text = Some doc ->
  api_key_of doc = Ok (VBool false) ->
  Main.load_config E (default_config_path w) w = (emit [Read loc] w, Ok (VBool false)) /\
  (forall doc', api_key_of doc' = Raise KeyError ->
     forall text', toml_loads E text' = Some doc' ->
     Main.load_config E (default_config_path w) (store loc text' w) =
     (emit [Read loc] (store loc text' w), Ok (VBool false))) /\
  let r := Main.app E (CmdDocument files replace language) w in
  r = (emit [Read loc; Echo no_key_msg] w, 1) /\ genai_key r.1 = genai_key w.
Proof.
  intros Hloc Hnode Hdoc Hkey. split_and!.
  - by rewrite (load_config_run E w _ loc text doc Hloc Hnode Hdoc), Hkey.
  - intros doc' Hkey' text' Hdoc'.
    assert (Hl : FS.link_at (nodes w) loc = None)
      by eauto using writable_no_link, file_writable.
    rewrite (load_config_run E (store loc text' w) _ loc text' doc');
      [by rewrite Hkey' | by apply locate_store | | done].
    apply node_at_store_eq. by eapply file_not_root.
  - cbv zeta. unfold Main.app, Main.document. unfold mbind, M_bind, bind.
    rewrite (init_config_present E w loc text doc Hloc Hnode Hdoc), Hkey.
    cbn [is_False exit_status]. done.
Qed.

(** ** The key that is read *)

Section LoadConfig.

Context (E : Env) (w : World) (p : Path) (loc : location) (text : string)
  (doc : dict).

Hypothesis Hloc : FS.locate w p = Some loc.
Hypothesis Hnode : FS.node_at (nodes w) loc = Some (File text).
Hypothesis Hdoc : toml_loads E text = Some doc.

(** The key of a file that has one. *)
Lemma load_config_key (api : dict) (key : value) :
  PyDict.get doc "API" = Some (VDict api) ->
  PyDict.get api "API_KEY" = Some key ->
  Main.load_config E p w = (emit [Read loc] w, Ok key).
Proof.
  intros Hapi Hkey. rewrite (load_config_run E w p loc text doc) by done.
  unfold api_key_of. cbn [PyDict.getitem]. rewrite Hapi. cbn [PyDict.getitem].
  by rewrite Hkey.
Qed.

(** [False] when the [API] table is not there. *)
Lemma load_config_no_section :
  PyDict.get doc "API" = None ->
  Main.load_config E p w = (emit [Read loc] w, Ok (VBool false)).
Proof.
  intros Hapi. rewrite (load_config_run E w p loc text doc) by done.
  unfold api_key_of. cbn [PyDict.getitem]. by rewrite Hapi.
Qed.

(** [False] when the [API] table has no [API_KEY]. *)
Lemma load_config_no_entry (api : dict) :
  PyDict.get doc "API" = Some (VDict api) ->
  PyDict.get api "API_KEY" = None ->
  Main.load_config E p w = (emit [Read loc] w, Ok (VBool false)).
Proof.
  intros Hapi Hkey. rewrite (load_config_run E w p loc text doc) by done.
  unfold api_key_of. cbn [PyDict.getitem]. rewrite Hapi. cbn [PyDict.getitem].
  by rewrite Hkey.
Qed.

(** C4, where the code fails it: the file parses, it has no
    [API.API_KEY] entry, and [load_config] raises [TypeError] instead of
    returning [False], because [API] is there and is no table. *)
Theorem load_config_no_table (v : value) :
  PyDict.get doc "API" = Some v ->
  is_table v = false ->
  api_key_of doc = Raise TypeError /\
  Main.load_config E p w = (emit [Read loc] w, Raise TypeError).
Proof.
  intros Hapi Hv.
  assert (Hk : api_key_of doc = Raise TypeError).
  { unfold api_key_of. cbn [PyDict.getitem]. rewrite Hapi.
    by destruct v. }
  split; [exact Hk |].
  by rewrite (load_config_run E w p loc text doc), Hk.
Qed.

End LoadConfig.

(** ** The key that is written *)

Section Config.

Context (E : Env) (w : World) (api_key : string) (p : Path) (loc : location)
  (text : string) (doc : dict).

Hypothesis Hloc : FS.locate w p = Some loc.
Hypothesis Hnode : FS.node_at (nodes w) loc = Some (File text).
Hypothesis Hdoc : toml_loads E text = Some doc.

(** After [config] the file holds the dump of a document in which both
    sections are tables, the key is the one given and no key appears
    twice. *)
Lemma config_saved_file :
  table_or_free doc "API" = true ->
  table_or_free doc "PATH" = true ->
  let doc' := saved doc api_key p in
  let r := Main.config E api_key p w in
  r.2 = Ok tt /\
  FS.node_at (nodes r.1) loc = Some (File (toml_dumps E doc')) /\
  api_key_of doc' = Ok (VStr api_key) /\
  is_table <$> PyDict.get doc' "API" = Some true /\
  is_table <$> PyDict.get doc' "PATH" = Some true /\
  (NoDup (PyDict.keys doc) -> NoDup (PyDict.keys doc')).
Proof.
  intros HA HP. cbv zeta.
  rewrite (config_saves E w api_key p loc text doc) by done. cbn [fst snd].
  split_and!.
  - done.
  - rewrite emit_store. apply node_at_store_eq. by eapply file_not_root.
  - apply api_key_of_saved_as.
  - unfold saved, saved_as. by rewrite get_set_ne, get_set_eq.
  - unfold saved, saved_as. by rewrite get_set_eq.
  - apply saved_as_NoDup.
Qed.

(** Saving the same key again, when the file reads back as it was
    dumped ([path_value] being what the [Path] reads back as), writes
    the same text again. *)
Lemma config_twice (path_value : value) :
  table_or_free doc "API" = true ->
  table_or_free doc "PATH" = true ->
  toml_loads E (toml_dumps E (saved doc api_key p)) =
    Some (saved_as doc api_key path_value) ->
  let text' := toml_dumps E (saved doc api_key p) in
  let w1 := (Main.config E api_key p w).1 in
  Main.config E api_key p w1 =
  (emit [Read loc; Write loc text'] w1, Ok tt).
Proof.
  intros HA HP Hback. cbv zeta.
  rewrite (config_saves E w api_key p loc text doc) by done. cbn [fst].
  set (text' := toml_dumps E (saved doc api_key p)).
  set (w1 := emit _ (store loc text' w)).
  assert (Hl : FS.link_at (nodes w) loc = None)
    by eauto using writable_no_link, file_writable.
  assert (Hloc1 : FS.locate w1 p = Some loc).
  { subst w1. rewrite locate_emit. by apply locate_store. }
  assert (Hnode1 : FS.node_at (nodes w1) loc = Some (File text')).
  { subst w1. rewrite emit_store. apply node_at_store_eq.
    by eapply file_not_root. }
  destruct (saved_as_tables doc api_key path_value) as (HA1 & HP1 & _).
  rewrite (config_saves E w1 api_key p loc text' _ Hloc1 Hnode1 Hback HA1 HP1).
  rewrite saved_saved_as. fold text'. f_equal.
  unfold store, emit. cbn. f_equal.
  subst w1. cbn [nodes emit store]. by rewrite insert_insert_eq.
Qed.

(** C5, where the code fails it: the file is there and parses, a
    section is there and is no table, and [config] raises [TypeError]
    before it writes: the run ends with a traceback and the file is
    as it was, without the tables and without the key. *)
Theorem config_no_table_fails :
  table_or_free doc "API" && table_or_free doc "PATH" = false ->
  Main.config E api_key p w = (emit [Read loc] w, Raise TypeError) /\
  let r := Main.app E (CmdConfig api_key (Some p)) w in
  r = (emit [Read loc; Traceback TypeError] w, 1) /\
  FS.node_at (nodes r.1) loc = Some (File text).
Proof.
  intros Hbad.
  pose proof (config_no_table E w api_key p loc text doc Hloc Hnode Hdoc Hbad) as H.
  split; [exact H |]. cbv zeta. unfold Main.app. rewrite H.
  cbn [exit_status]. by rewrite emit_emit.
Qed.

End Config.

(** ** The two source files *)

(** C8: the functions of [main.py] and of [doc_main.py] give the same
    result and leave the same world on every input, with the same
    collaborators. *)
Theorem main_doc_main_agree (E : Env) :
  (forall p w, Main.load_config E p w = DocMain.load_config E p w) /\
  (forall w, Main.init_config E w = DocMain.init_config E w) /\
  (forall api_key p w, Main.config E api_key p w = DocMain.config E api_key p w) /\
  (forall files replace model w,
     Main.handling_files E files replace model w =
     DocMain.handling_files E files replace model w) /\
  (forall files replace language w,
     Main.document E files replace language w =
     DocMain.document E files replace language w) /\
  (forall cmd w, Main.app E cmd w = DocMain.app E cmd w).
Proof.
  assert (Hh : forall files replace model w,
     Main.handling_files E files replace model w =
     DocMain.handling_files E files replace model w).
  { induction files as [|file files IH]; intros replace model w; [reflexivity |].
    cbn [Main.handling_files DocMain.handling_files].
    unfold mbind, M_bind, bind.
    change (DocMain.output_file file replace w) with (Main.output_file file replace w).
    destruct (Main.output_file file replace w) as [w1 [out|e]]; [| reflexivity].
    change (DocMain.doc_code) with (Main.doc_code).
    destruct (try_except _ _ _ w1) as [w2 [[]|e]]; [apply IH | reflexivity]. }
  split_and!; try reflexivity; try exact Hh.
Qed.

(** * The claims on the sample environment *)

Module Samples.
Import Demo.

(** The scenario of the specification: the key is ["abc"], [hello.py]
    holds [print(1)], the model answers three lines, and
    [document hello.py] leaves [doc_hello.py] with the middle line. *)
Example end_to_end :
  let r := Main.app env (CmdDocument [rel "hello.py"] false (Some "english"))
                    (configured doc_abc) in
  r.2 = 0 /\
  nodes r.1 !! doc_hello_loc = Some (File "print(1)  # prints one") /\
  nodes r.1 !! hello_loc = Some (File "print(1)") /\
  genai_key r.1 = Some (VStr "abc") /\
  filter (fun e => is_message e = true) (trace r.1) =
    [Echo "Documentation for hello.py ready"].
Proof. cbv zeta. split_and!; vm_compute; reflexivity. Qed.

(** [hello.py] is documented next to itself: the fences go, the line
    between them stays. *)
Lemma persisted_lines_hello :
  let r := Main.handling_files env [rel "hello.py"] false model ready in
  r.2 = Ok tt /\
  FS.node_at (nodes r.1) doc_hello_loc = Some (File "print(1)  # prints one").
Proof.
  apply (persisted_lines env ready (rel "hello.py") false model
           hello_loc "print(1)" hello_answer (mkPath true doc_hello_loc)
           doc_hello_loc); vm_compute; reflexivity.
Defined.

(** C1 as it is written fails for N = 0: the model answers the empty
    text for [empty.py], which has no line; no [IndexError] is raised,
    the round ends well and the empty text is written. *)
Lemma empty_answer_raises_nothing :
  let r := Main.handling_files env [rel "empty.py"] true model ready in
  answer "" = Some "" /\
  length (PyStr.splitlines "") = 0%nat /\
  r.2 = Ok tt /\ r.2 <> Raise IndexError /\
  FS.node_at (nodes r.1) empty_loc = Some (File "").
Proof.
  cbv zeta.
  set (r := Main.handling_files env [rel "empty.py"] true model ready).
  assert (Hr : r.2 = Ok tt) by (vm_compute; reflexivity).
  split_and!; try (vm_compute; reflexivity).
  rewrite Hr. discriminate.
Qed.

Lemma persisted_final_newline_hello :
  exists body,
    FS.node_at (nodes (Main.handling_files env [rel "hello.py"] false model ready).1)
               doc_hello_loc = Some (File body) /\
    (PyStr.ends_with_newline body = true <->
     (4 <= 3)%nat /\ PyStr.splitlines hello_answer !! 1%nat = Some "").
Proof.
  apply (persisted_final_newline env ready (rel "hello.py") false model
           hello_loc "print(1)" hello_answer (mkPath true doc_hello_loc)
           doc_hello_loc); vm_compute; reflexivity.
Defined.

(** C10 as it is written fails: the answer for [blank.py] has a blank
    line before its closing fence, and the content written ends with a
    line feed. *)
Lemma blank_line_ends_with_newline :
  let r := Main.handling_files env [rel "blank.py"] true model ready in
  r.2 = Ok tt /\
  FS.node_at (nodes r.1) blank_loc = Some (File ("x = 1" +:+ PyStr.LF)) /\
  PyStr.ends_with_newline ("x = 1" +:+ PyStr.LF) = true.
Proof. cbv zeta. split_and!; vm_compute; reflexivity. Qed.

(** An absolute path that is its own resolution: the output paths are
    the ones the claim gives. *)
Lemma output_file_resolved_hello :
  let file := mkPath true hello_loc in
  Main.output_file file true ready = (ready, Ok file) /\
  Main.output_file file false ready = (ready, Ok (mkPath true doc_hello_loc)).
Proof.
  destruct (output_file_resolved ready (mkPath true hello_loc) hello_loc)
    as (_ & _ & _ & H); [vm_compute; reflexivity |].
  destruct (H eq_refl) as [Ht Hf]. split; [exact Ht |].
  apply Hf. vm_compute; reflexivity.
Defined.

(** C2 as it is written fails: [link.py] is a symbolic link to
    [lib/real.py].  The output path is not the parent directory of the
    input joined with [doc_link.py], and does not lead to the same
    place either: the result goes to the directory of the target.  With
    [replace] the output path is the target, not the input path. *)
Lemma output_file_follows_link :
  let file := rel "link.py" in
  let claimed := PyPath.joinpath (PyPath.parent file) ("doc_" +:+ PyPath.name file) in
  let out := mkPath true ["home"; "u"; "lib"; "doc_link.py"] in
  Main.output_file file false ready = (ready, Ok out) /\
  out <> claimed /\
  FS.locate ready out = Some ["home"; "u"; "lib"; "doc_link.py"] /\
  FS.locate ready claimed = Some ["home"; "u"; "doc_link.py"] /\
  Main.output_file file true ready = (ready, Ok (mkPath true real_loc)) /\
  mkPath true real_loc <> file.
Proof.
  cbv zeta. split_and!; try (vm_compute; reflexivity); discriminate.
Qed.




(** [API_KEY = false]: as if there were no key. *)
Lemma false_key_is_no_key_sample :
  let w := configured doc_key_false in
  let r := Main.app env (CmdDocument [rel "hello.py"] false None) w in
  Main.load_config env cfg w = (emit [Read cfg_loc] w, Ok (VBool false)) /\
  r = (emit [Read cfg_loc; Echo no_key_msg] w, 1) /\
  genai_key r.1 = None.
Proof.
  destruct (false_key_is_no_key env (configured doc_key_false) [rel "hello.py"]
              false None cfg_loc (render doc_key_false) doc_key_false)
    as (H1 & _ & H2 & H3); try (vm_compute; reflexivity).
  split_and!; [exact H1 | exact H2 | exact H3].
Defined.

(** [API = 1]: the file parses and has no key, and [load_config]
    raises. *)
Lemma load_config_no_table_int :
  api_key_of [("API", VInt 1)] = Raise TypeError /\
  Main.load_config env cfg (configured doc_api_int) =
  (emit [Read cfg_loc] (configured doc_api_int), Raise TypeError).
Proof.
  apply (load_config_no_table env (configured doc_api_int) cfg cfg_loc
           (render doc_api_int) doc_api_int
           ltac:(vm_compute; reflexivity) ltac:(vm_compute; reflexivity)
           ltac:(vm_compute; reflexivity) (VInt 1)); vm_compute; reflexivity.
Defined.

(** [API = 1]: [config] raises and the file stays as it was. *)
Lemma config_no_table_fails_int :
  let w := configured doc_api_int in
  let r := Main.app env (CmdConfig "abc" (Some cfg)) w in
  r = (emit [Read cfg_loc; Traceback TypeError] w, 1) /\
  FS.node_at (nodes r.1) cfg_loc = Some (File (render doc_api_int)).
Proof.
  apply (config_no_table_fails env (configured doc_api_int) "abc" cfg cfg_loc
           (render doc_api_int) doc_api_int); vm_compute; reflexivity.
Defined.

(** An empty file: the key is saved, and saved again. *)
Lemma config_twice_sample :
  let w := configured [] in
  let w1 := (Main.config env "abc" cfg w).1 in
  FS.node_at (nodes w1) cfg_loc = Some (File (render doc_saved)) /\
  Main.config env "abc" cfg w1 =
  (emit [Read cfg_loc; Write cfg_loc (render doc_saved)] w1, Ok tt).
Proof.
  split; [vm_compute; reflexivity |].
  apply (config_twice env (configured []) "abc" cfg cfg_loc "" []
           ltac:(vm_compute; reflexivity) ltac:(vm_compute; reflexivity)
           ltac:(vm_compute; reflexivity)
           (VStr "PosixPath('/home/u/docsai.toml')"));
    vm_compute; reflexivity.
Qed.

End Samples.

(** * Further properties *)

(** ** Lines of a joined text *)

Section LineFacts.
Import PyStr.

Lemma append_nil_l s : "" +:+ s = s.
Proof. reflexivity. Qed.

Lemma append_cons c s t : String c s +:+ t = String c (s +:+ t).
Proof. reflexivity. Qed.

Lemma append_assoc s t u : (s +:+ t) +:+ u = s +:+ t +:+ u.
Proof.
  induction s as [|c s IH]; [reflexivity |].
  rewrite !append_cons. by rewrite IH.
Qed.

Lemma splitlines_no_break c s1 :
  starts_break (String c s1) = false ->
  splitlines (String c s1) = prepend c (splitlines s1).
Proof.
  cbn [starts_break splitlines]. intros H.
  apply orb_false_elim in H as [H H4].
  apply orb_false_elim in H as [H H3].
  apply orb_false_elim in H as [H1 H2].
  rewrite H1, H2.
  destruct (N_of_ascii c =? 194)%N.
  { cbn [andb] in H3. destruct s1 as [|d s2]; [done |]. by rewrite H3. }
  destruct (N_of_ascii c =? 226)%N; [| done].
  cbn [andb] in H4. destruct s1 as [|d [|e s3]]; try done. by rewrite H4.
Qed.

(** A boundary does not start at [c] because of what follows a line that
    ends with a line feed. *)
Lemma starts_break_line c l rest :
  starts_break (String c l) = false ->
  starts_break (String c (l +:+ LF +:+ rest)) = false.
Proof.
  cbn [starts_break]. intros H.
  apply orb_false_elim in H as [H H4].
  apply orb_false_elim in H as [H H3].
  rewrite H. cbn [orb].
  apply orb_false_intro.
  - destruct (N_of_ascii c =? 194)%N; [| done]. cbn [andb] in *.
    destruct l as [|d l]; [reflexivity | exact H3].
  - destruct (N_of_ascii c =? 226)%N; [| done]. cbn [andb] in *.
    destruct l as [|d [|e l]].
    + change ("" +:+ LF +:+ rest) with (String (chr 10) rest).
      by destruct rest.
    + change (String d "" +:+ LF +:+ rest) with (String d (String (chr 10) rest)).
      cbv iota. by destruct (N_of_ascii d =? 128)%N.
    + exact H4.
Qed.

(** A line and its line feed in front of a text: one more line. *)
Lemma splitlines_line l rest :
  breakfree l = true -> splitlines (l +:+ LF +:+ rest) = l :: splitlines rest.
Proof.
  induction l as [|c l IH]; [reflexivity |].
  cbn [breakfree]. intros [Hc Hl]%andb_true_iff. apply negb_true_iff in Hc.
  rewrite append_cons, splitlines_no_break by (by apply starts_break_line).
  by rewrite IH.
Qed.

Lemma splitlines_one l :
  breakfree l = true -> l <> "" -> splitlines l = [l].
Proof.
  induction l as [|c l IH]; [done |].
  cbn [breakfree]. intros [Hc Hl]%andb_true_iff _. apply negb_true_iff in Hc.
  rewrite splitlines_no_break by done.
  destruct l as [|d l]; [reflexivity |]. by rewrite IH.
Qed.

Lemma join_cons_cons sep p q ps :
  join sep (p :: q :: ps) = p +:+ sep +:+ join sep (q :: ps).
Proof. reflexivity. Qed.

(** Joining lines and splitting the text gives the lines back, with or
    without a line feed at the end. *)
Lemma splitlines_join ls l :
  Forall (fun x => breakfree x = true) ls ->
  breakfree l = true -> l <> "" ->
  splitlines (join LF (ls ++ [l])) = ls ++ [l] /\
  splitlines (join LF (ls ++ [l]) +:+ LF) = ls ++ [l].
Proof.
  intros Hls Hl Hne. induction Hls as [|x ls Hx Hls IH]; cbn [app].
  - cbn [join]. split; [by apply splitlines_one |].
    rewrite <- (append_nil_l LF) at 1.
    change (l +:+ "" +:+ LF) with (l +:+ LF +:+ "").
    by rewrite splitlines_line.
  - destruct IH as [IH1 IH2].
    destruct (ls ++ [l]) as [|y ys] eqn:Hy; [by destruct ls |].
    rewrite join_cons_cons, append_assoc, append_assoc.
    rewrite !splitlines_line by done. by rewrite IH1, IH2.
Qed.

End LineFacts.

(** X1: whatever the first and the last line of the answer are, the
    lines between them are kept as they are: an answer that is [first],
    the lines [body] and a non-empty [last], joined by line feeds, gives
    [body] joined by line feeds, and one more line feed at the end of the
    answer changes nothing. *)
Theorem doc_code_between (first last : string) (body : list string) :
  breakfree first = true ->
  Forall (fun x => breakfree x = true) body ->
  breakfree last = true ->
  last <> "" ->
  let answer := PyStr.join PyStr.LF (first :: body ++ [last]) in
  Main.doc_code answer = PyStr.join PyStr.LF body /\
  Main.doc_code (answer +:+ PyStr.LF) = PyStr.join PyStr.LF body.
Proof.
  intros Hf Hb Hl Hne. cbv zeta. unfold Main.doc_code.
  destruct (splitlines_join (first :: body) last) as [H1 H2]; [by constructor | done..|].
  cbn [app] in H1, H2. rewrite H1, H2.
  assert (Hs : PyStr.slice 1 (-1) (first :: body ++ [last]) = body).
  { rewrite slice_strip. change (drop 1 (first :: body ++ [last])) with (body ++ [last]).
    cbn [length]. rewrite length_app. cbn [length].
    replace (S (length body + 1) - 2)%nat with (length body) by lia.
    by rewrite take_app_length. }
  by rewrite Hs.
Qed.

(** ** What a run may change *)

Section Steps.

Context (E : Env) (R : World -> World -> Prop).

Hypothesis R_refl : forall w, R w w.
Hypothesis R_trans : forall w1 w2 w3, R w1 w2 -> R w2 w3 -> R w1 w3.
Hypothesis R_emit : forall es w, R w (emit es w).
Hypothesis R_store :
  forall loc s w, FS.writable (nodes w) loc = true -> R w (store loc s w).

Lemma steps_ret {A} (a : A) : steps R (mret a).
Proof. intros w w' r [= <- _]. apply R_refl. Qed.

Lemma steps_raise {A} e : steps R (@raise A e).
Proof. intros w w' r [= <- _]. apply R_refl. Qed.

Lemma steps_lift {A} (x : result A) : steps R (lift x).
Proof. intros w w' r [= <- _]. apply R_refl. Qed.

Lemma steps_bind {A B} (c : M A) (k : A -> M B) :
  steps R c -> (forall a, steps R (k a)) -> steps R (c ≫= k).
Proof.
  intros Hc Hk w w' r. unfold_m.
  destruct (c w) as [w1 [a|e]] eqn:H1.
  - intros H2. eapply R_trans; [by eapply Hc | by eapply Hk].
  - intros [= <- _]. by eapply Hc.
Qed.

Lemma steps_try {A} (body handler : M A) catches :
  steps R body -> steps R handler -> steps R (try_except body catches handler).
Proof.
  intros Hb Hh w w' r. unfold_m.
  destruct (body w) as [w1 [a|e]] eqn:H1.
  - intros [= <- _]. by eapply Hb.
  - destruct (catches e).
    + intros H2. eapply R_trans; [by eapply Hb | by eapply Hh].
    + intros [= <- _]. by eapply Hb.
Qed.

Lemma steps_log e : steps R (log e).
Proof. intros w w' r [= <- _]. apply R_emit. Qed.

Lemma steps_resolve p : steps R (Sys.resolve p).
Proof.
  intros w w' r. unfold Sys.resolve.
  destruct (FS.locate w p); intros [= <- _]; apply R_refl.
Qed.

Lemma steps_exists p : steps R (Sys.exists_ p).
Proof.
  intros w w' r. unfold Sys.exists_.
  destruct (FS.locate w p); intros [= <- _]; apply R_refl.
Qed.

Lemma steps_path_home : steps R Sys.path_home.
Proof. intros w w' r [= <- _]. apply R_refl. Qed.

Lemma steps_read_text p : steps R (Sys.read_text p).
Proof.
  intros w w' r. unfold Sys.read_text.
  destruct (FS.locate w p) as [loc|]; [| intros [= <- _]; apply R_refl].
  destruct (FS.node_at (nodes w) loc) as [[]|]; intros [= <- _];
    first [apply R_emit | apply R_refl].
Qed.

Lemma steps_write_text p s : steps R (Sys.write_text p s).
Proof.
  intros w w' r. unfold Sys.write_text.
  destruct (FS.locate w p) as [loc|]; [| intros [= <- _]; apply R_refl].
  destruct (FS.node_at (nodes w) loc) as [[]|] eqn:Hn; intros [= <- _];
    try apply R_refl.
  all: eapply R_trans; [apply R_store | apply R_emit].
  all: unfold FS.writable; by rewrite Hn.
Qed.

Lemma steps_generate_text model content : steps R (generate_text E model content).
Proof.
  intros w w' r. unfold generate_text.
  destruct (generate_content _ _ _ _ _); intros [= <- _]; apply R_emit.
Qed.

Lemma steps_toml_load p : steps R (Toml.load E p).
Proof.
  apply steps_bind; [apply steps_read_text |].
  intros text. destruct (toml_loads E text); [apply steps_ret | apply steps_raise].
Qed.

Ltac steps_tac :=
  repeat first
    [ apply steps_bind; [| intros ?]
    | apply steps_try
    | match goal with |- steps _ (if ?b then _ else _) => destruct b end
    | match goal with |- steps _ (match ?x with _ => _ end) => destruct x end
    | apply steps_ret | apply steps_raise | apply steps_lift | apply steps_log
    | apply steps_resolve | apply steps_exists | apply steps_path_home
    | apply steps_read_text | apply steps_write_text
    | apply steps_generate_text | apply steps_toml_load
    | solve [eauto] ].

Lemma steps_handling_files files replace model :
  steps R (Main.handling_files E files replace model).
Proof.
  induction files as [|file files IH]; cbn [Main.handling_files].
  - apply steps_ret.
  - unfold Main.output_file, Sys.echo, Sys.rich_print. steps_tac.
Qed.

Lemma steps_load_config p : steps R (Main.load_config E p).
Proof. unfold Main.load_config. steps_tac. Qed.

Lemma steps_config api_key p : steps R (Main.config E api_key p).
Proof. unfold Main.config, Toml.dump, Sys.echo. steps_tac. Qed.

(** [init_config] is the one place where the credential is set. *)
Lemma steps_init_config :
  (forall v w, R w (set_key v w)) -> steps R (Main.init_config E).
Proof.
  intros R_key. unfold Main.init_config, Sys.echo.
  pose proof steps_load_config.
  assert (forall v, steps R (Sys.configure v)).
  { intros v w w' r [= <- _]. apply R_key. }
  steps_tac.
Qed.

Lemma steps_document files replace language :
  (forall v w, R w (set_key v w)) ->
  steps R (Main.document E files replace language).
Proof.
  intros R_key. unfold Main.document. cbv zeta.
  apply steps_bind; [by apply steps_init_config |].
  intros _. apply steps_handling_files.
Qed.

End Steps.

Section Evolves.

Lemma file_change_refl n : file_change n n.
Proof. by destruct n as [[]|]. Qed.

Lemma file_change_trans a b c : file_change a b -> file_change b c -> file_change a c.
Proof.
  unfold file_change.
  destruct a as [[]|], b as [[]|], c as [[]|]; try done; try congruence.
Qed.

Lemma evolves_refl w : evolves w w.
Proof.
  split_and!; [done | done | by exists []; rewrite app_nil_r |].
  intros q. apply file_change_refl.
Qed.

Lemma evolves_trans w1 w2 w3 : evolves w1 w2 -> evolves w2 w3 -> evolves w1 w3.
Proof.
  intros (Hc1 & Hh1 & [es1 Ht1] & Hn1) (Hc2 & Hh2 & [es2 Ht2] & Hn2).
  split_and!; [congruence | congruence | |].
  - exists (es1 ++ es2). by rewrite Ht2, Ht1, (assoc_L (++)).
  - intros q. by eapply file_change_trans.
Qed.

Lemma evolves_emit es w : evolves w (emit es w).
Proof.
  split_and!; [done | done | by exists es |].
  intros q. apply file_change_refl.
Qed.

Lemma evolves_set_key v w : evolves w (set_key v w).
Proof.
  split_and!; [done | done | by exists []; rewrite app_nil_r |].
  intros q. apply file_change_refl.
Qed.

Lemma evolves_store loc s w :
  FS.writable (nodes w) loc = true -> evolves w (store loc s w).
Proof.
  intros Hwr.
  split_and!; [done | done | by exists []; rewrite app_nil_r |].
  intros q. cbn [nodes store]. destruct (decide (loc = q)) as [<-|Hne].
  - rewrite lookup_insert_eq. unfold FS.writable, FS.node_at in Hwr.
    destruct loc; [done |]. by destruct (nodes w !! _) as [[]|].
  - rewrite lookup_insert_ne by done. apply file_change_refl.
Qed.

Lemma evolves_quietly_refl w : evolves_quietly w w.
Proof. split; [apply evolves_refl | done]. Qed.

Lemma evolves_quietly_trans w1 w2 w3 :
  evolves_quietly w1 w2 -> evolves_quietly w2 w3 -> evolves_quietly w1 w3.
Proof.
  intros [H1 K1] [H2 K2]. split; [by eapply evolves_trans | congruence].
Qed.

Lemma evolves_quietly_emit es w : evolves_quietly w (emit es w).
Proof. split; [apply evolves_emit | done]. Qed.

Lemma evolves_quietly_store loc s w :
  FS.writable (nodes w) loc = true -> evolves_quietly w (store loc s w).
Proof. intros H. split; [by apply evolves_store | done]. Qed.

End Evolves.

(** X2: whatever the subcommand and however the run ends, the program
    deletes nothing and touches no directory and no symbolic link: at
    every place of the file system a file got a new content, a file
    appeared where nothing was, or nothing changed; the working and home
    directories are the same and the trace only grew.  [handling_files]
    and [config], moreover, leave the credential as it was. *)
Theorem program_evolves (E : Env) :
  (forall cmd w, evolves w (Main.app E cmd w).1) /\
  (forall files replace model w,
     evolves_quietly w (Main.handling_files E files replace model w).1) /\
  (forall api_key p w, evolves_quietly w (Main.config E api_key p w).1).
Proof.
  assert (Hex : forall r : World * result unit, evolves r.1 (exit_status r).1).
  { intros [w [[]|e]]; cbn [exit_status fst]; [apply evolves_refl |].
    destruct e; first [apply evolves_emit | apply evolves_refl]. }
  split_and!.
  - intros cmd w. unfold Main.app.
    eapply evolves_trans; [| apply Hex].
    destruct cmd as [files replace language | api_key [p|]].
    + destruct (Main.document E files replace language w) as [w' r] eqn:H.
      eapply (steps_document E evolves); eauto using evolves_refl,
        evolves_trans, evolves_emit, evolves_store, evolves_set_key.
    + destruct (Main.config E api_key p w) as [w' r] eqn:H.
      eapply (steps_config E evolves); eauto using evolves_refl,
        evolves_trans, evolves_emit, evolves_store.
    + unfold Sys.path_home. unfold_m.
      destruct (Main.config E api_key _ w) as [w' r] eqn:H.
      eapply (steps_config E evolves); eauto using evolves_refl,
        evolves_trans, evolves_emit, evolves_store.
  - intros files replace model w.
    destruct (Main.handling_files E files replace model w) as [w' r] eqn:H.
    eapply (steps_handling_files E evolves_quietly); eauto using
      evolves_quietly_refl, evolves_quietly_trans, evolves_quietly_emit,
      evolves_quietly_store.
  - intros api_key p w.
    destruct (Main.config E api_key p w) as [w' r] eqn:H.
    eapply (steps_config E evolves_quietly); eauto using
      evolves_quietly_refl, evolves_quietly_trans, evolves_quietly_emit,
      evolves_quietly_store.
Qed.

(** ** [load_config] *)

(** X3: [load_config] returns what the file holds under [API.API_KEY] as
    it is, whatever its type, a string or not; the file is read and
    nothing else happens. *)
Theorem load_config_returns_entry (E : Env) (w : World) (p : Path)
    (loc : location) (text : string) (doc api : dict) (key : value) :
  FS.locate w p = Some loc ->
  FS.node_at (nodes w) loc = Some (File text) ->
  toml_loads E text = Some doc ->
  PyDict.get doc "API" = Some (VDict api) ->
  PyDict.get api "API_KEY" = Some key ->
  Main.load_config E p w = (emit [Read loc] w, Ok key).
Proof.
  intros Hloc Hnode Hdoc Hapi Hkey.
  rewrite (load_config_run E w p loc text doc Hloc Hnode Hdoc).
  unfold api_key_of. cbn [PyDict.getitem]. rewrite Hapi.
  cbn [PyDict.getitem]. by rewrite Hkey.
Qed.

(** X4: [load_config] returns [False], and raises nothing, when the file
    parses and has no [API] entry, and when its [API] table has no
    [API_KEY] entry. *)
Theorem load_config_false_without_key (E : Env) (w : World) (p : Path)
    (loc : location) (text : string) (doc : dict) :
  FS.locate w p = Some loc ->
  FS.node_at (nodes w) loc = Some (File text) ->
  toml_loads E text = Some doc ->
  PyDict.get doc "API" = None \/
  (exists api, PyDict.get doc "API" = Some (VDict api) /\
               PyDict.get api "API_KEY" = None) ->
  Main.load_config E p w = (emit [Read loc] w, Ok (VBool false)).
Proof.
  intros Hloc Hnode Hdoc [Hno | (api & Hapi & Hkey)].
  - by eapply load_config_no_section.
  - by eapply load_config_no_entry.
Qed.


(** ** [config] *)

(** X6: on a file that parses and in which [API] and [PATH] are each a
    table or absent, [config] ends with status 0 and the file holds the
    dump of a document in which [API.API_KEY] is the key given,
    [PATH.PATH] is the path given, both sections are tables, and no key
    appears twice if none did. *)
Theorem config_saves_key (E : Env) (w : World) (api_key : string) (p : Path)
    (loc : location) (text : string) (doc : dict) :
  FS.locate w p = Some loc ->
  FS.node_at (nodes w) loc = Some (File text) ->
  toml_loads E text = Some doc ->
  table_or_free doc "API" = true ->
  table_or_free doc "PATH" = true ->
  exists doc',
    Main.app E (CmdConfig api_key (Some p)) w =
    (emit [Read loc; Write loc (toml_dumps E doc')] (store loc (toml_dumps E doc') w), 0) /\
    FS.node_at (nodes (Main.app E (CmdConfig api_key (Some p)) w).1) loc =
      Some (File (toml_dumps E doc')) /\
    api_key_of doc' = Ok (VStr api_key) /\
    PyDict.get (table_at doc' "PATH") "PATH" = Some (VPath p) /\
    is_table <$> PyDict.get doc' "API" = Some true /\
    is_table <$> PyDict.get doc' "PATH" = Some true /\
    (NoDup (PyDict.keys doc) -> NoDup (PyDict.keys doc')).
Proof.
  intros Hloc Hnode Hdoc HA HP. exists (saved doc api_key p).
  assert (Hrun : Main.app E (CmdConfig api_key (Some p)) w =
    (emit [Read loc; Write loc (toml_dumps E (saved doc api_key p))]
          (store loc (toml_dumps E (saved doc api_key p)) w), 0)).
  { unfold Main.app. by rewrite (config_saves E w api_key p loc text doc). }
  rewrite Hrun. cbn [fst]. split_and!.
  - done.
  - rewrite emit_store. apply node_at_store_eq. by eapply file_not_root.
  - apply api_key_of_saved_as.
  - unfold saved. rewrite table_at_saved_as_PATH. apply get_set_eq.
  - unfold saved, saved_as. by rewrite get_set_ne, get_set_eq.
  - unfold saved, saved_as. by rewrite get_set_eq.
  - apply saved_as_NoDup.
Qed.

(** X7: [config] keeps what else the file holds: every other top-level
    entry, every other entry of the [API] and of the [PATH] table, and
    the order of the keys; a section that was absent goes last. *)
Theorem config_keeps_entries (E : Env) (w : World) (api_key : string) (p : Path)
    (loc : location) (text : string) (doc : dict) :
  FS.locate w p = Some loc ->
  FS.node_at (nodes w) loc = Some (File text) ->
  toml_loads E text = Some doc ->
  table_or_free doc "API" = true ->
  table_or_free doc "PATH" = true ->
  exists doc',
    Main.config E api_key p w =
    (emit [Read loc; Write loc (toml_dumps E doc')] (store loc (toml_dumps E doc') w), Ok tt) /\
    (forall k, k <> "API" -> k <> "PATH" -> PyDict.get doc' k = PyDict.get doc k) /\
    (forall k, k <> "API_KEY" ->
       PyDict.get (table_at doc' "API") k = PyDict.get (table_at doc "API") k) /\
    (forall k, k <> "PATH" ->
       PyDict.get (table_at doc' "PATH") k = PyDict.get (table_at doc "PATH") k) /\
    PyDict.keys doc `prefix_of` PyDict.keys doc'.
Proof.
  intros Hloc Hnode Hdoc HA HP. exists (saved doc api_key p). split_and!.
  - by rewrite (config_saves E w api_key p loc text doc).
  - intros k H1 H2. unfold saved, saved_as. by rewrite !get_set_ne.
  - intros k Hk. unfold saved. rewrite table_at_saved_as_API. by rewrite get_set_ne.
  - intros k Hk. unfold saved. rewrite table_at_saved_as_PATH. by rewrite get_set_ne.
  - unfold saved, saved_as. rewrite !keys_set.
    repeat case_match; try done.
    + by apply prefix_app_r.
    + by apply prefix_app_r.
    + by do 2 apply prefix_app_r.
Qed.

(** X8: [config] changes no file but the configuration file, and when
    it raises, whatever the exception, it has changed no file at all: the
    file is opened for writing after everything that can fail. *)
Theorem config_changes_one_file (E : Env) (w w' : World) (api_key : string)
    (p : Path) (r : result unit) :
  Main.config E api_key p w = (w', r) ->
  (forall e, r = Raise e -> nodes w' = nodes w) /\
  (forall loc q, FS.locate w p = Some loc -> q <> loc ->
     nodes w' !! q = nodes w !! q).
Proof.
  unfold Main.config, Toml.load, Toml.dump, Sys.read_text, Sys.write_text, Sys.echo.
  unfold_m. intros H.
  destruct (FS.locate w p) as [loc|] eqn:Hloc.
  2:{ injection H as <- <-. split; [done | by intros]. }
  destruct (FS.node_at (nodes w) loc) as [[text| |t]|] eqn:Hnode;
    try (injection H as <- <-; split; [done | by intros]).
  destruct (toml_loads E text) as [doc|];
    [| injection H as <- <-; split; [done | by intros]].
  cbn [is_FileNotFoundError] in H.
  repeat match type of H with
         | match ?x with Ok _ => _ | Raise _ => _ end = _ =>
             destruct x; [| injection H as <- <-; split; [done | by intros]]
         end.
  change (FS.locate (emit [Read loc] w) p) with (FS.locate w p) in H.
  rewrite Hloc in H. cbn [nodes emit] in H. rewrite Hnode in H.
  injection H as <- <-. split; [done |].
  intros loc' q [= <-] Hq. cbn [nodes emit store]. by rewrite lookup_insert_ne.
Qed.

(** X9: [config] twice with the same key, when the file reads back as it
    was dumped ([path_value] being what the [Path] reads back as): the
    second run writes the text of the first again, so the file system
    after two runs is the one after one run. *)
Theorem config_idempotent (E : Env) (w : World) (api_key : string) (p : Path)
    (loc : location) (text : string) (doc : dict) (path_value : value) :
  FS.locate w p = Some loc ->
  FS.node_at (nodes w) loc = Some (File text) ->
  toml_loads E text = Some doc ->
  table_or_free doc "API" = true ->
  table_or_free doc "PATH" = true ->
  toml_loads E (toml_dumps E (saved doc api_key p)) =
    Some (saved_as doc api_key path_value) ->
  let w1 := (Main.config E api_key p w).1 in
  let r2 := Main.config E api_key p w1 in
  r2.2 = Ok tt /\
  nodes r2.1 = nodes w1 /\
  trace r2.1 = trace w1 ++ [Read loc; Write loc (toml_dumps E (saved doc api_key p))].
Proof.
  intros Hloc Hnode Hdoc HA HP Hback. cbv zeta.
  rewrite (config_twice E w api_key p loc text doc Hloc Hnode Hdoc path_value HA HP Hback).
  by cbn [fst snd nodes trace emit].
Qed.

(** X10: the key that [config] saved is the key that [load_config] and
    [init_config] find, when the file reads back as it was dumped: after
    [config] on the default path, [init_config] sets that key as the
    credential and prints nothing. *)
Theorem config_then_init_config (E : Env) (w : World) (api_key : string)
    (loc : location) (text : string) (doc : dict) (path_value : value) :
  let p := default_config_path w in
  FS.locate w p = Some loc ->
  FS.node_at (nodes w) loc = Some (File text) ->
  toml_loads E text = Some doc ->
  table_or_free doc "API" = true ->
  table_or_free doc "PATH" = true ->
  toml_loads E (toml_dumps E (saved doc api_key p)) =
    Some (saved_as doc api_key path_value) ->
  let w1 := (Main.app E (CmdConfig api_key None) w).1 in
  Main.load_config E p w1 = (emit [Read loc] w1, Ok (VStr api_key)) /\
  Main.init_config E w1 = (set_key (VStr api_key) (emit [Read loc] w1), Ok tt).
Proof.
  cbv zeta. intros Hloc Hnode Hdoc HA HP Hback.
  set (p := default_config_path w) in *.
  set (text' := toml_dumps E (saved doc api_key p)) in *.
  assert (Hw1 : (Main.app E (CmdConfig api_key None) w).1 =
                emit [Read loc; Write loc text'] (store loc text' w)).
  { unfold Main.app, Sys.path_home. unfold_m. fold (default_config_path w). fold p.
    by rewrite (config_saves E w api_key p loc text doc). }
  rewrite Hw1. set (w1 := emit _ (store loc text' w)).
  assert (Hl : FS.link_at (nodes w) loc = None)
    by eauto using writable_no_link, file_writable.
  assert (Hloc1 : FS.locate w1 (default_config_path w1) = Some loc).
  { subst w1. rewrite locate_emit. by apply locate_store. }
  assert (Hnode1 : FS.node_at (nodes w1) loc = Some (File text')).
  { subst w1. rewrite emit_store. apply node_at_store_eq. by eapply file_not_root. }
  split.
  - rewrite (load_config_run E w1 p loc text' _ Hloc1 Hnode1 Hback).
    by rewrite api_key_of_saved_as.
  - rewrite (init_config_present E w1 loc text' _ Hloc1 Hnode1 Hback).
    by rewrite api_key_of_saved_as.
Qed.

(** ** [init_config] and [document] *)

(** X11: [init_config] takes for the credential whatever [API.API_KEY]
    holds, provided it is not the boolean [false]: a number or an empty
    string is set as it is, no message is printed and no file is changed;
    [document] then runs the loop over the files with that credential and
    the handle for the language. *)
Theorem document_uses_key (E : Env) (w : World) (files : list Path)
    (replace : bool) (language : option string) (loc : location)
    (text : string) (doc : dict) (key : value) :
  FS.locate w (default_config_path w) = Some loc ->
  FS.node_at (nodes w) loc = Some (File text) ->
  toml_loads E text = Some doc ->
  api_key_of doc = Ok key ->
  is_False key = false ->
  Main.init_config E w = (set_key key (emit [Read loc] w), Ok tt) /\
  Main.document E files replace language w =
  Main.handling_files E files replace (documenter language)
    (set_key key (emit [Read loc] w)).
Proof.
  intros Hloc Hnode Hdoc Hkey Hfalse.
  assert (Hinit : Main.init_config E w = (set_key key (emit [Read loc] w), Ok tt)).
  { by rewrite (init_config_present E w loc text doc Hloc Hnode Hdoc), Hkey, Hfalse. }
  split; [exact Hinit |].
  unfold Main.document. cbv zeta. fold (documenter language).
  unfold mbind, M_bind, bind. by rewrite Hinit.
Qed.

(** ** [handling_files] *)

(** X12: the files are processed in order and the first exception ends
    the run: the loop over [pre ++ post] is the loop over [pre] followed,
    when it returns, by the loop over [post] from the world it left; when
    it raises, nothing of [post] happens. *)
Theorem handling_files_in_order (E : Env) (pre post : list Path) (replace : bool)
    (model : GenerativeModel) (w : World) :
  Main.handling_files E (pre ++ post) replace model w =
  match Main.handling_files E pre replace model w with
  | (w1, Ok _) => Main.handling_files E post replace model w1
  | (w1, Raise e) => (w1, Raise e)
  end.
Proof.
  revert w. induction pre as [|file pre IH]; intros w; [reflexivity |].
  cbn [Main.handling_files app]. unfold mbind, M_bind, bind.
  destruct (Main.output_file file replace w) as [w1 [out|e]]; [| reflexivity].
  destruct (try_except _ _ _ w1) as [w2 [[]|e]]; [apply IH | reflexivity].
Qed.

(** X13: when the request to the model raises, the exception is not
    caught: the file was read, nothing is written for it, no later file
    is processed, and the run ends with a traceback and status 1. *)
Theorem service_failure_ends_run (E : Env) (w : World) (file : Path)
    (files : list Path) (replace : bool) (model : GenerativeModel)
    (loc : location) (content : string) (out : Path) :
  wf w = true ->
  FS.locate w file = Some loc ->
  FS.node_at (nodes w) loc = Some (File content) ->
  Main.output_file file replace w = (w, Ok out) ->
  generate_content E (trace w ++ [Read loc]) (genai_key w) model content = None ->
  let r := Main.handling_files E (file :: files) replace model w in
  r = (emit [Read loc; Request model content] w, Raise ServiceError) /\
  exit_status r = (emit [Read loc; Request model content; Traceback ServiceError] w, 1) /\
  nodes r.1 = nodes w.
Proof.
  intros Hwf Hloc Hnode Hout Hgen. cbv zeta.
  assert (H : Main.handling_files E (file :: files) replace model w =
              (emit [Read loc; Request model content] w, Raise ServiceError)).
  { cbn [Main.handling_files]. unfold_m. rewrite Hout.
    rewrite (resolve_run _ _ _ Hloc).
    rewrite (read_text_file _ _ loc content) by eauto using locate_resolved.
    unfold generate_text. cbn [trace genai_key emit]. rewrite Hgen.
    cbn [is_FileNotFoundError]. by rewrite emit_emit. }
  rewrite H. split_and!; [done | | done].
  cbn [exit_status]. by rewrite emit_emit.
Qed.

(** X14: an input that leads to a directory is not reported as missing:
    the loop raises [IsADirectoryError], or [ValueError] when the
    directory is the root and [replace] is false, nothing is printed or
    written and the run ends there. *)
Theorem directory_input_raises (E : Env) (w : World) (file : Path)
    (files : list Path) (replace : bool) (model : GenerativeModel)
    (loc : location) :
  wf w = true ->
  FS.locate w file = Some loc ->
  FS.node_at (nodes w) loc = Some Dir ->
  Main.handling_files E (file :: files) replace model w =
  (w, Raise (if negb replace && bool_decide (loc = [])
             then ValueError else IsADirectoryError)).
Proof.
  intros Hwf Hloc Hnode. cbn [Main.handling_files]. unfold_m.
  assert (Hread : Sys.read_text (mkPath true loc) w = (w, Raise IsADirectoryError)).
  { unfold Sys.read_text. rewrite (locate_resolved w file loc Hwf Hloc).
    by rewrite Hnode. }
  destruct replace; cbn [negb andb].
  - rewrite (output_file_replace w file loc Hloc), (resolve_run _ _ _ Hloc).
    by rewrite Hread.
  - rewrite (output_file_sibling w file loc Hloc).
    case_bool_decide as Hroot.
    + by subst loc.
    + rewrite (settled_last_named (nodes w)) by eauto using locate_settled.
      rewrite (resolve_run _ _ _ Hloc). by rewrite Hread.
Qed.

(** X15: one round of the loop changes one place of the file system,
    the one the result goes to, whatever was there is replaced without a
    copy being kept, and every other file is as it was: without [replace]
    the source file keeps its content unless the output path leads back
    to it. *)
Theorem round_changes_one_file (E : Env) (w : World) (file : Path)
    (replace : bool) (model : GenerativeModel) (loc : location)
    (content response : string) (out : Path) (oloc : location) :
  wf w = true ->
  FS.locate w file = Some loc ->
  FS.node_at (nodes w) loc = Some (File content) ->
  generate_content E (trace w ++ [Read loc]) (genai_key w) model content = Some response ->
  Main.output_file file replace w = (w, Ok out) ->
  FS.locate w out = Some oloc ->
  FS.writable (nodes w) oloc = true ->
  let w' := (Main.handling_files E [file] replace model w).1 in
  nodes w' !! oloc = Some (File (Main.doc_code response)) /\
  (forall q, q <> oloc -> nodes w' !! q = nodes w !! q) /\
  (oloc <> loc -> FS.node_at (nodes w') loc = Some (File content)) /\
  (replace = true -> oloc = loc).
Proof.
  intros Hwf Hloc Hnode Hgen Hout Holoc Hwr. cbv zeta.
  rewrite (round_run E w file replace model loc content response out oloc) by done.
  cbn [fst nodes emit store]. split_and!.
  - by rewrite lookup_insert_eq.
  - intros q Hq. by rewrite lookup_insert_ne.
  - intros Hne. unfold FS.node_at in *. destruct loc; [done |].
    by rewrite lookup_insert_ne.
  - intros ->. rewrite (output_file_replace w file loc Hloc) in Hout.
    injection Hout as <-.
    rewrite (locate_resolved w file loc Hwf Hloc) in Holoc. congruence.
Qed.


(** * The further properties on the sample environment *)

Module MoreSamples.
Import Demo.

Ltac by_computation := vm_compute; reflexivity.

(** The answer for [hello.py], with and without a line feed after its
    closing fence. *)
Lemma doc_code_between_hello :
  Main.doc_code hello_answer = "print(1)  # prints one" /\
  Main.doc_code (hello_answer +:+ PyStr.LF) = "print(1)  # prints one".
Proof.
  apply (doc_code_between "```python" "```" ["print(1)  # prints one"]);
    [reflexivity | by repeat constructor | reflexivity | discriminate].
Defined.

(** [API_KEY = 0]: the number is what [load_config] returns. *)
Lemma load_config_returns_entry_zero :
  let w := store cfg_loc (render More.doc_key_zero) fresh in
  Main.load_config More.env cfg w = (emit [Read cfg_loc] w, Ok (VInt 0)).
Proof.
  apply (load_config_returns_entry More.env _ cfg cfg_loc
           (render More.doc_key_zero) More.doc_key_zero
           [("API_KEY", VInt 0)] (VInt 0)); by_computation.
Defined.

(** An [API] table without the key, and an empty file. *)
Lemma load_config_false_without_key_samples :
  Main.load_config env cfg (configured doc_no_key) =
    (emit [Read cfg_loc] (configured doc_no_key), Ok (VBool false)) /\
  Main.load_config env cfg (configured []) =
    (emit [Read cfg_loc] (configured []), Ok (VBool false)).
Proof.
  split.
  - apply (load_config_false_without_key env (configured doc_no_key) cfg cfg_loc
             (render doc_no_key) doc_no_key); try by_computation.
    right. exists []. split; by_computation.
  - apply (load_config_false_without_key env (configured []) cfg cfg_loc "" []);
      try by_computation.
    left. by_computation.
Defined.


(** An empty configuration file gets both sections. *)
Lemma config_saves_key_empty :
  exists doc',
    Main.app env (CmdConfig "abc" (Some cfg)) (configured []) =
    (emit [Read cfg_loc; Write cfg_loc (render doc')]
          (store cfg_loc (render doc') (configured [])), 0) /\
    FS.node_at (nodes (Main.app env (CmdConfig "abc" (Some cfg)) (configured [])).1)
               cfg_loc = Some (File (render doc')) /\
    api_key_of doc' = Ok (VStr "abc") /\
    PyDict.get (table_at doc' "PATH") "PATH" = Some (VPath cfg) /\
    is_table <$> PyDict.get doc' "API" = Some true /\
    is_table <$> PyDict.get doc' "PATH" = Some true /\
    (NoDup (PyDict.keys []) -> NoDup (PyDict.keys doc')).
Proof.
  apply (config_saves_key env (configured []) "abc" cfg cfg_loc "" []);
    by_computation.
Defined.

(** A file with a title and a user in its [API] table keeps both. *)
Lemma config_keeps_entries_notes :
  let w := store cfg_loc (render More.doc_notes) fresh in
  exists doc',
    Main.config More.env "abc" cfg w =
    (emit [Read cfg_loc; Write cfg_loc (render doc')] (store cfg_loc (render doc') w), Ok tt) /\
    (forall k, k <> "API" -> k <> "PATH" ->
       PyDict.get doc' k = PyDict.get More.doc_notes k) /\
    (forall k, k <> "API_KEY" ->
       PyDict.get (table_at doc' "API") k = PyDict.get [("user", VStr "me")] k) /\
    (forall k, k <> "PATH" -> PyDict.get (table_at doc' "PATH") k = None) /\
    ["title"; "API"] `prefix_of` PyDict.keys doc'.
Proof.
  apply (config_keeps_entries More.env
           (store cfg_loc (render More.doc_notes) fresh) "abc" cfg cfg_loc
           (render More.doc_notes) More.doc_notes); by_computation.
Defined.

(** [config] on [API = 1] raises and changes nothing. *)
Lemma config_changes_one_file_int :
  let r := Main.config env "abc" cfg (configured doc_api_int) in
  (forall e, r.2 = Raise e -> nodes r.1 = nodes (configured doc_api_int)) /\
  (forall loc q, FS.locate (configured doc_api_int) cfg = Some loc -> q <> loc ->
     nodes r.1 !! q = nodes (configured doc_api_int) !! q).
Proof.
  apply (config_changes_one_file env (configured doc_api_int)
           (Main.config env "abc" cfg (configured doc_api_int)).1 "abc" cfg
           (Main.config env "abc" cfg (configured doc_api_int)).2).
  by_computation.
Defined.

(** The key saved twice in an empty file. *)
Lemma config_idempotent_empty :
  let w1 := (Main.config env "abc" cfg (configured [])).1 in
  let r2 := Main.config env "abc" cfg w1 in
  r2.2 = Ok tt /\
  nodes r2.1 = nodes w1 /\
  trace r2.1 = trace w1 ++ [Read cfg_loc; Write cfg_loc (render doc_saved)].
Proof.
  apply (config_idempotent env (configured []) "abc" cfg cfg_loc "" []
           (VStr "PosixPath('/home/u/docsai.toml')")); by_computation.
Defined.

(** After [config] on an empty file, [init_config] has the key. *)
Lemma config_then_init_config_empty :
  let w1 := (Main.app env (CmdConfig "abc" None) (configured [])).1 in
  Main.load_config env cfg w1 = (emit [Read cfg_loc] w1, Ok (VStr "abc")) /\
  Main.init_config env w1 = (set_key (VStr "abc") (emit [Read cfg_loc] w1), Ok tt).
Proof.
  apply (config_then_init_config env (configured []) "abc" cfg_loc "" []
           (VStr "PosixPath('/home/u/docsai.toml')")); by_computation.
Defined.

(** [API_KEY = 0]: the number becomes the credential. *)
Lemma document_uses_key_zero :
  let w := store cfg_loc (render More.doc_key_zero) fresh in
  Main.init_config More.env w = (set_key (VInt 0) (emit [Read cfg_loc] w), Ok tt) /\
  Main.document More.env [rel "hello.py"] false None w =
  Main.handling_files More.env [rel "hello.py"] false (documenter None)
    (set_key (VInt 0) (emit [Read cfg_loc] w)).
Proof.
  apply (document_uses_key More.env _ [rel "hello.py"] false None cfg_loc
           (render More.doc_key_zero) More.doc_key_zero (VInt 0)); by_computation.
Defined.

(** The request for [boom.py] fails: [hello.py] is not reached. *)
Lemma service_failure_ends_run_boom :
  let r := Main.handling_files env [rel "boom.py"; rel "hello.py"] false model
             More.with_boom in
  r = (emit [Read More.boom_loc; Request model "boom"] More.with_boom,
       Raise ServiceError) /\
  exit_status r =
    (emit [Read More.boom_loc; Request model "boom"; Traceback ServiceError]
          More.with_boom, 1) /\
  nodes r.1 = nodes More.with_boom.
Proof.
  apply (service_failure_ends_run env More.with_boom (rel "boom.py")
           [rel "hello.py"] false model More.boom_loc "boom"
           (mkPath true ["home"; "u"; "doc_boom.py"])); by_computation.
Defined.

(** The directory [lib] is no missing file. *)
Lemma directory_input_raises_lib :
  Main.handling_files env [rel "lib"; rel "hello.py"] false model ready =
  (ready, Raise IsADirectoryError).
Proof.
  apply (directory_input_raises env ready (rel "lib") [rel "hello.py"] false model
           ["home"; "u"; "lib"]); by_computation.
Defined.

(** [hello.py] documented next to itself: [doc_hello.py] appears and
    [hello.py] is as it was. *)
Lemma round_changes_one_file_hello :
  let w' := (Main.handling_files env [rel "hello.py"] false model ready).1 in
  nodes w' !! doc_hello_loc = Some (File (Main.doc_code hello_answer)) /\
  (forall q, q <> doc_hello_loc -> nodes w' !! q = nodes ready !! q) /\
  (doc_hello_loc <> hello_loc -> FS.node_at (nodes w') hello_loc = Some (File "print(1)")) /\
  (false = true -> doc_hello_loc = hello_loc).
Proof.
  apply (round_changes_one_file env ready (rel "hello.py") false model hello_loc
           "print(1)" hello_answer (mkPath true doc_hello_loc) doc_hello_loc);
    by_computation.
Defined.


End MoreSamples.
